(** * Transcript retrieval and summarisation pipeline of [context_analysis.py]

    A shallow embedding of the module's five functions
    ([get_video_transcript], [format_time], [get_transcript_with_timestamps],
    [summarize_transcript], [analyze_video_content]) together with the
    fragment of Python they run on: dynamically typed values, floats,
    exceptions caught by [try]/[except], [print], and the builtin [eval].

    The captions library, the LLM client and what the interpreter does with
    a source text handed to [eval] are external collaborators; they are
    fields of the environment records [Captions], [Runtime] and
    [Interpreter]. *)

From Stdlib Require Import ZArith QArith Qround Qabs String Ascii List Bool Lia.
Import ListNotations.

Set Warnings "-register-all".

Open Scope string_scope.
Open Scope Z_scope.

(** ** Exceptions and outcomes *)

(** Instances of Python's [Exception] class, which is what the captions
    library, the HTTP stack, the LLM client, [eval] of a malformed reply and
    the failing dictionary and iteration operations below raise.  The
    exceptions that are not instances of [Exception] are the [Signal]s
    below. *)
Inductive exn : Type :=
  | KeyError (key : string)
  | TypeError (msg : string)
  | ValueError (msg : string)
  | SyntaxError (msg : string)
  | OtherError (cls msg : string).

(** [str(e)].  A [KeyError] prints the [repr] of its key; the keys looked up
    in this module are plain identifiers, whose [repr] is the key between
    single quotes. *)
Definition exn_str (e : exn) : string :=
  match e with
  | KeyError key => "'" ++ key ++ "'"
  | TypeError msg => msg
  | ValueError msg => msg
  | SyntaxError msg => msg
  | OtherError _ msg => msg
  end.

Inductive outcome (A : Type) : Type :=
  | Ret (a : A)
  | Raise (e : exn).
Arguments Ret {A} a.
Arguments Raise {A} e.

(** What takes a call out of the account given here.  [Signal]: an
    exception that is not an instance of [Exception] was raised
    ([SystemExit], [KeyboardInterrupt], [GeneratorExit]); no [except
    Exception] clause catches it.  [Foreign]: the call goes on with an
    object, or an exception, of a class that an evaluated text supplied (a
    subclass of [dict], a [UserDict], an exception with a [__str__] of its
    own, ...); what it does from there is up to the methods of that class
    and is not followed. *)
Inductive escape : Type :=
  | Signal (cls message : string)
  | Foreign (cls : string).

(** How a call that may evaluate a text ends: with an outcome, or outside
    the account. *)
Inductive run (A : Type) : Type :=
  | Finished (o : outcome A)
  | Escaped (x : escape).
Arguments Finished {A} o.
Arguments Escaped {A} x.

(** An outcome stands for the run that finishes with it, also as the
    component of a pair. *)
Coercion Finished : outcome >-> run.
Arguments pair {A B}%_type_scope & _ _.

(** ** Floats *)

(** [2 ** e] *)
Definition pow2 (e : Z) : Q :=
  if 0 <=? e then inject_Z (2 ^ e) else / inject_Z (2 ^ (- e)).

(** The exponent of a non-zero [x]: the [k] with [2 ** k <= |x| < 2 ** (k + 1)]. *)
Definition Qlog2 (x : Q) : Z :=
  let a := Qabs x in
  if Qle_bool 1 a then Z.log2 (Qfloor a) else - Z.log2_up (Qceiling (/ a)).

(** The nearest integer, and the even one of two that are equally near. *)
Definition round_half_even (x : Q) : Z :=
  let n := Qfloor x in
  match (x - inject_Z n ?= 1 # 2)%Q with
  | Lt => n
  | Gt => n + 1
  | Eq => if Z.even n then n else n + 1
  end.

(** The float nearest to [x] in IEEE 754 binary64, the format of Python's
    [float]: a significand of 53 bits and an exponent no smaller than that
    of the subnormal numbers.  Every operation on floats below is the exact
    operation followed by this rounding.  No float is larger than
    [2 ** 1024]; the operations of [format_time] yield results no larger in
    magnitude than their operands plus 3600, so the upper end of the
    exponent range plays no part in them. *)
Definition binary64 (x : Q) : Q :=
  if Qeq_bool x 0 then 0%Q
  else
    let e := Z.max (-1074) (Qlog2 x - 52) in
    (inject_Z (round_half_even (x / pow2 e)) * pow2 e)%Q.

Definition Qltb (x y : Q) : bool := negb (Qle_bool y x).

(** [int(x)] for a finite float: truncation towards zero. *)
Definition py_int (x : Q) : Z :=
  if Qle_bool 0 x then Qfloor x else Qceiling x.

(** C's [fmod(x, y)], which is exact: [x] less the multiple of [y] given by
    the truncated quotient. *)
Definition fmod (x y : Q) : Q := (x - y * inject_Z (py_int (x / y)))%Q.

(** The test [if (mod) { if ((wx < 0) != (mod < 0)) ...] of CPython's
    [float_divmod] and [float_rem]. *)
Definition opposite_signs (remainder d : Q) : bool :=
  negb (Qeq_bool remainder 0) && xorb (Qltb d 0) (Qltb remainder 0).

(** The last step of CPython's floor division: the quotient is snapped to
    the nearest whole number. *)
Definition snap_quotient (div : Q) : Q :=
  if Qeq_bool div 0 then 0%Q
  else
    let floordiv := inject_Z (Qfloor div) in
    if Qltb (1 # 2) (binary64 (div - floordiv)) then binary64 (floordiv + 1)
    else floordiv.

(** [x // d] and [x % d] on floats, for [d] other than zero, as CPython
    computes them: [div = (x - mod) / d] with [mod = fmod(x, d)], both
    adjusted when [mod] and [d] differ in sign. *)
Definition py_floordiv (x d : Q) : Q :=
  let remainder := fmod x d in
  let div := binary64 (binary64 (x - remainder) / d) in
  snap_quotient (if opposite_signs remainder d then binary64 (div - 1) else div).

Definition py_mod (x d : Q) : Q :=
  let remainder := fmod x d in
  if opposite_signs remainder d then binary64 (remainder + d) else remainder.

(** ** Python values *)

(** The floats that are not numbers of seconds: the two infinities and
    NaN. *)
Inductive nonfinite : Type :=
  | PosInf
  | NegInf
  | NaN.

(** A finite [float] is given by a rational: [PyFloat q] is the float
    nearest to [q] ([binary64] above), so that every finite float is
    [PyFloat] of the rational it denotes.  The arithmetic on floats rounds
    as the machine does; an [int] is unbounded and its arithmetic exact. *)
Inductive pyval : Type :=
  | PyNone
  | PyBool (b : bool)
  | PyInt (z : Z)
  | PyFloat (q : Q)
  | PyNonFinite (f : nonfinite)
  | PyStr (s : string)
  | PyList (items : list pyval)
  | PyDict (entries : list (pyval * pyval)).

Definition newline : string := String (ascii_of_nat 10) EmptyString.

(** [sep.join(parts)] *)
Definition join (sep : string) (parts : list string) : string :=
  String.concat sep parts.

(** Truth value tested by [if not x]. *)
Definition py_truthy (v : pyval) : bool :=
  match v with
  | PyNone => false
  | PyBool b => b
  | PyInt z => negb (z =? 0)
  | PyFloat q => negb (Qeq_bool (binary64 q) 0)
  | PyNonFinite _ => true
  | PyStr s => negb (String.eqb s EmptyString)
  | PyList items => match items with [] => false | _ => true end
  | PyDict entries => match entries with [] => false | _ => true end
  end.

Definition type_name (v : pyval) : string :=
  match v with
  | PyNone => "NoneType"
  | PyBool _ => "bool"
  | PyInt _ => "int"
  | PyFloat _ => "float"
  | PyNonFinite _ => "float"
  | PyStr _ => "str"
  | PyList _ => "list"
  | PyDict _ => "dict"
  end.

Definition key_is (key : string) (k : pyval) : bool :=
  match k with
  | PyStr s => String.eqb s key
  | _ => false
  end.

Fixpoint dict_get (entries : list (pyval * pyval)) (key : string) : option pyval :=
  match entries with
  | [] => None
  | (k, v) :: rest => if key_is key k then Some v else dict_get rest key
  end.

Fixpoint dict_set (entries : list (pyval * pyval)) (key : string) (v : pyval)
  : list (pyval * pyval) :=
  match entries with
  | [] => [(PyStr key, v)]
  | (k, old) :: rest =>
      if key_is key k then (k, v) :: rest else (k, old) :: dict_set rest key v
  end.

(** [obj[key]] for a string key. *)
Definition py_getitem (obj : pyval) (key : string) : outcome pyval :=
  match obj with
  | PyDict entries =>
      match dict_get entries key with
      | Some v => Ret v
      | None => Raise (KeyError key)
      end
  | PyList _ => Raise (TypeError "list indices must be integers or slices, not str")
  | PyStr _ => Raise (TypeError "string indices must be integers, not 'str'")
  | _ => Raise (TypeError ("'" ++ type_name obj ++ "' object is not subscriptable"))
  end.

(** [obj[key] = v] for a string key. *)
Definition py_setitem (obj : pyval) (key : string) (v : pyval) : outcome pyval :=
  match obj with
  | PyDict entries => Ret (PyDict (dict_set entries key v))
  | PyList _ => Raise (TypeError "list indices must be integers or slices, not str")
  | _ => Raise (TypeError ("'" ++ type_name obj ++ "' object does not support item assignment"))
  end.

(** Strings are UTF-8 byte sequences; iterating a [str] yields its code
    points, each a lead byte with the continuation bytes that follow it. *)
Definition is_continuation (c : ascii) : bool :=
  let n := nat_of_ascii c in ((128 <=? n) && (n <? 192))%nat.

Fixpoint code_points_from (cur : string) (s : string) : list string :=
  match s with
  | EmptyString => [cur]
  | String c rest =>
      if is_continuation c then code_points_from (cur ++ String c EmptyString) rest
      else cur :: code_points_from (String c EmptyString) rest
  end.

Definition code_points (s : string) : list string :=
  match s with
  | EmptyString => []
  | String c rest => code_points_from (String c EmptyString) rest
  end.

(** The elements a [for] loop or a generator draws from [obj]. *)
Definition py_iter (obj : pyval) : outcome (list pyval) :=
  match obj with
  | PyList items => Ret items
  | PyStr s => Ret (map PyStr (code_points s))
  | PyDict entries => Ret (map fst entries)
  | _ => Raise (TypeError ("'" ++ type_name obj ++ "' object is not iterable"))
  end.

(** ** Decimal rendering of integers *)

Definition digit_char (d : Z) : ascii := ascii_of_nat (48 + Z.to_nat d).

Fixpoint decimal_digits (fuel : nat) (n : Z) (acc : string) : string :=
  let acc' := String (digit_char (n mod 10)) acc in
  match fuel with
  | O => acc'
  | S fuel' => if n <? 10 then acc' else decimal_digits fuel' (n / 10) acc'
  end.

(** [str(n)] for [0 <= n]; a number has no more decimal than binary digits. *)
Definition decimal (n : Z) : string :=
  decimal_digits (Z.to_nat (Z.log2 n)) n EmptyString.

Fixpoint zeros (k : nat) : string :=
  match k with
  | O => EmptyString
  | S k' => String "0" (zeros k')
  end.

Definition zfill (width : nat) (s : string) : string :=
  zeros (width - String.length s) ++ s.

(** [format(n, "02d")]: the sign counts towards the width of two. *)
Definition format_02d (n : Z) : string :=
  if n <? 0 then "-" ++ zfill 1 (decimal (- n)) else zfill 2 (decimal n).

(** [str(n)] for an [int]. *)
Definition int_str (n : Z) : string :=
  if n <? 0 then "-" ++ decimal (- n) else decimal n.

(** ** The interpreter and the services around the module *)

(** What the module takes from the interpreter and from its configuration:
    [repr] of strings and floats, the value of a source text that is a
    literal (a display of strings, numbers, lists and dicts, as the prompt
    asks for; a malformed text raises), the credential read from the
    environment when the module is loaded, and the chat model behind
    [chain.invoke].  The reply may depend on how many requests were made
    before, so that a sampling model is an instance too. *)
Record Runtime : Type := {
  str_repr : string -> string;
  float_repr : Q -> string;
  eval_value : string -> outcome pyval;
  OPENAI_API_KEY : option string;
  chain_invoke : nat -> string -> Z -> outcome string
}.

(** The state of the interpreter process that an evaluated text can
    reach (module globals, the environment, files), and the local names in
    scope where [eval] is called, each with the value it holds. *)
Definition store : Type := list (string * pyval).
Definition scope : Type := list (string * pyval).

Fixpoint bound (names : list (string * pyval)) (name : string) : option pyval :=
  match names with
  | [] => None
  | (k, v) :: rest => if String.eqb k name then Some v else bound rest name
  end.

Fixpoint rebind (names : list (string * pyval)) (name : string) (v : pyval)
  : list (string * pyval) :=
  match names with
  | [] => [(name, v)]
  | (k, old) :: rest =>
      if String.eqb k name then (k, v) :: rest else (k, old) :: rebind rest name v
  end.

Fixpoint unbind (names : list (string * pyval)) (name : string)
  : list (string * pyval) :=
  match names with
  | [] => []
  | (k, v) :: rest =>
      if String.eqb k name then unbind rest name else (k, v) :: unbind rest name
  end.

(** What evaluating a text comes to: a value of the builtin types, an
    [Exception], or an escape. *)
Inductive evaluation : Type :=
  | Value (v : pyval)
  | Throws (e : exn)
  | Leaves (x : escape).

(** The interpreter behind [eval].  A text is a Python expression and
    evaluating it is running it: [code source locals globals] is what running
    [source] comes to, with the local names and the process state as they
    are after it.  [None] is for the texts that run nothing: the literals,
    whose value the runtime gives, and the malformed texts. *)
Record Interpreter : Type := {
  runtime : Runtime;
  code : string -> scope -> store -> option (evaluation * scope * store)
}.

(** The interpreter on replies that are all literals or malformed. *)
Definition literally (R : Runtime) : Interpreter :=
  {| runtime := R; code := fun _ _ _ => None |}.

Coercion literally : Runtime >-> Interpreter.

Definition evaluate (I : Interpreter) (source : string) (locals : scope)
    (globals : store) : evaluation * scope * store :=
  match code I source locals globals with
  | Some result => result
  | None =>
      (match eval_value (runtime I) source with
       | Ret v => Value v
       | Raise e => Throws e
       end, locals, globals)
  end.

(** The part of [youtube_transcript_api] the module calls.
    [find_transcript_translation_languages tl codes langs] is the call
    [tl.find_transcript(codes, translation_languages=langs)]; [generated t]
    is the attribute [t.is_generated], set on the tracks that speech
    recognition produced. *)
Record Captions : Type := {
  TranscriptList : Type;
  Transcript : Type;
  FetchedTranscript : Type;
  generated : Transcript -> bool;
  list_transcripts : string -> outcome TranscriptList;
  find_transcript : TranscriptList -> list string -> outcome Transcript;
  find_transcript_translation_languages :
    TranscriptList -> list string -> list string -> outcome Transcript;
  translate : Transcript -> string -> outcome Transcript;
  fetch : Transcript -> outcome FetchedTranscript;
  format_transcript : FetchedTranscript -> outcome string
}.

(** [repr(v)] and [str(v)]. *)
Fixpoint py_repr (R : Runtime) (v : pyval) : string :=
  match v with
  | PyNone => "None"
  | PyBool b => if b then "True" else "False"
  | PyInt z => int_str z
  | PyFloat q => float_repr R q
  | PyNonFinite PosInf => "inf"
  | PyNonFinite NegInf => "-inf"
  | PyNonFinite NaN => "nan"
  | PyStr s => str_repr R s
  | PyList items => "[" ++ join ", " (map (py_repr R) items) ++ "]"
  | PyDict entries =>
      "{" ++ join ", "
               (map (fun kv => match kv with
                               | (k, x) => py_repr R k ++ ": " ++ py_repr R x
                               end) entries) ++ "}"
  end.

Definition py_str (R : Runtime) (v : pyval) : string :=
  match v with
  | PyStr s => s
  | _ => py_repr R v
  end.

(** ** Observable state and the monad of the module's functions *)

(** What a call leaves behind: the lines printed, the requests sent to the
    chat model, the source texts handed to [eval] for execution, and the
    state of the process. *)
Record world : Type := {
  stdout : list string;
  llm_requests : list (string * Z);
  evaluated : list string;
  process : store
}.

Definition empty_world : world :=
  {| stdout := []; llm_requests := []; evaluated := []; process := [] |}.

(** The monad of the functions that evaluate no text: a call returns or
    raises an [Exception]. *)
Definition M (A : Type) : Type := world -> outcome A * world.

Definition ret {A : Type} (a : A) : M A := fun w => (Ret a, w).

Definition bind {A B : Type} (c : M A) (k : A -> M B) : M B :=
  fun w =>
    match c w with
    | (Ret a, w') => k a w'
    | (Raise e, w') => (Raise e, w')
    end.

Definition lift {A : Type} (o : outcome A) : M A := fun w => (o, w).

(** [try: body / except Exception as e: handler e]; an unnamed [except:]
    is the same with a handler that ignores [e]. *)
Definition try_except {A : Type} (body : M A) (handler : exn -> M A) : M A :=
  fun w =>
    match body w with
    | (Ret a, w') => (Ret a, w')
    | (Raise e, w') => handler e w'
    end.

Definition printed (line : string) (w : world) : world :=
  {| stdout := stdout w ++ [line];
     llm_requests := llm_requests w;
     evaluated := evaluated w;
     process := process w |}.

Definition requested (transcript : string) (max_length : Z) (w : world) : world :=
  {| stdout := stdout w;
     llm_requests := llm_requests w ++ [(transcript, max_length)];
     evaluated := evaluated w;
     process := process w |}.

Definition executed (source : string) (w : world) : world :=
  {| stdout := stdout w;
     llm_requests := llm_requests w;
     evaluated := evaluated w ++ [source];
     process := process w |}.

Definition with_process (globals : store) (w : world) : world :=
  {| stdout := stdout w;
     llm_requests := llm_requests w;
     evaluated := evaluated w;
     process := globals |}.

Definition print (line : string) : M unit :=
  fun w => (Ret tt, printed line w).

Notation "x <- c ;; k" := (bind c (fun x => k))
  (at level 61, c at next level, right associativity).
Notation "c ;;; k" := (bind c (fun _ => k))
  (at level 61, right associativity).

Definition obind {A B : Type} (o : outcome A) (k : A -> outcome B) : outcome B :=
  match o with
  | Ret a => k a
  | Raise e => Raise e
  end.

(** [try]/[except] around calls that leave nothing behind. *)
Definition or_else {A : Type} (body : outcome A) (handler : exn -> outcome A)
  : outcome A :=
  match body with
  | Ret a => Ret a
  | Raise e => handler e
  end.

Notation "x <~ o ;; k" := (obind o (fun x => k))
  (at level 61, o at next level, right associativity).

(** [chain.invoke({...}).content]: one request to the chat model. *)
Definition invoke (R : Runtime) (transcript : string) (max_length : Z) : M string :=
  fun w =>
    (chain_invoke R (List.length (llm_requests w)) transcript max_length,
     requested transcript max_length w).

(** ** Calls that evaluate a text *)

(** The monad of the functions that call [eval], over the state [St]. *)
Definition Exec (St A : Type) : Type := St -> run A * St.

Definition exec_ret {St A : Type} (a : A) : Exec St A :=
  fun s => (Finished (Ret a), s).

Definition exec_raise {St A : Type} (e : exn) : Exec St A :=
  fun s => (Finished (Raise e), s).

Definition exec_lift {St A : Type} (o : outcome A) : Exec St A :=
  fun s => (Finished o, s).

Definition exec_bind {St A B : Type} (c : Exec St A) (k : A -> Exec St B)
  : Exec St B :=
  fun s =>
    match c s with
    | (Finished (Ret a), s') => k a s'
    | (Finished (Raise e), s') => (Finished (Raise e), s')
    | (Escaped x, s') => (Escaped x, s')
    end.

(** A call that evaluates nothing. *)
Definition finished {St A : Type} (c : St -> outcome A * St) : Exec St A :=
  fun s => match c s with (o, s') => (Finished o, s') end.

(** [try: body / except Exception as e: handler e]: a signal is not an
    [Exception] and goes past the handler. *)
Definition exec_try {St A : Type} (body : Exec St A) (handler : exn -> Exec St A)
  : Exec St A :=
  fun s =>
    match body s with
    | (Finished (Ret a), s') => (Finished (Ret a), s')
    | (Finished (Raise e), s') => handler e s'
    | (Escaped x, s') => (Escaped x, s')
    end.

Notation "x <== c ;; k" := (exec_bind c (fun x => k))
  (at level 61, c at next level, right associativity).
Notation "c =>> k" := (exec_bind c (fun _ => k))
  (at level 61, right associativity).

(** The builtin [eval(source)], called where the names of [locals] are in
    scope: the interpreter runs [source] as an expression, on those names
    and on the state of the process.  The call yields the value or the
    [Exception] of the evaluation, and the local names as they are after it;
    a signal takes the call with it. *)
Definition py_eval_in (I : Interpreter) (source : string) (locals : scope)
  : Exec world (outcome pyval * scope) :=
  fun w =>
    match evaluate I source locals (process w) with
    | (ev, locals', globals) =>
        let w' := with_process globals (executed source w) in
        match ev with
        | Value v => (Finished (Ret (Ret v, locals')), w')
        | Throws e => (Finished (Ret (Raise e, locals')), w')
        | Leaves x => (Escaped x, w')
        end
    end.

(** [eval(source)] where no local name is read after it. *)
Definition py_eval (I : Interpreter) (source : string) (locals : scope)
  : Exec world pyval :=
  result <== py_eval_in I source locals ;;
  exec_lift (fst result).

(** ** [format_time] *)

(** Lines 72-74: the two renderings. *)
Definition timecode (hours minutes seconds : Z) : string :=
  if 0 <? hours
  then format_02d hours ++ ":" ++ format_02d minutes ++ ":" ++ format_02d seconds
  else format_02d minutes ++ ":" ++ format_02d seconds.

(** [format_time] on the finite float nearest to [seconds]. *)
Definition format_time (seconds : Q) : string :=
  let seconds := binary64 seconds in
  timecode (py_int (py_floordiv seconds (3600 # 1)))
           (py_int (py_floordiv (py_mod seconds (3600 # 1)) (60 # 1)))
           (py_int (py_mod seconds (60 # 1))).

(** [format_time] on an [int]: [//] and [%] are the exact floor division
    and remainder, and [int] changes nothing. *)
Definition format_time_int (seconds : Z) : string :=
  timecode (seconds / 3600) ((seconds mod 3600) / 60) (seconds mod 60).

(** [format_time] applied to a value of any type: [//] is defined on
    numbers only, and on an infinity or NaN it gives NaN, which [int]
    refuses. *)
Definition format_time_dyn (seconds : pyval) : outcome string :=
  match seconds with
  | PyInt z => Ret (format_time_int z)
  | PyFloat q => Ret (format_time q)
  | PyBool b => Ret (format_time_int (if b then 1 else 0))
  | PyNonFinite _ => Raise (ValueError "cannot convert float NaN to integer")
  | _ => Raise (TypeError ("unsupported operand type(s) for //: '"
                           ++ type_name seconds ++ "' and 'int'"))
  end.

(** ** [get_video_transcript] *)

(** The nested [try]/[except] of lines 31-43: the track chosen and the value
    the local [is_auto_generated] receives with it. *)
Definition select_transcript (C : Captions) (transcript_list : TranscriptList C)
  : outcome (Transcript C * bool) :=
  or_else
    (transcript <~ find_transcript C transcript_list ["ko"] ;;
     Ret (transcript, false))
    (fun _ =>
       or_else
         (transcript <~ find_transcript_translation_languages C
                          transcript_list ["ko"] ["ko"] ;;
          Ret (transcript, true))
         (fun _ =>
            source <~ find_transcript C transcript_list ["en"] ;;
            transcript <~ translate C source "ko" ;;
            Ret (transcript, true))).

Definition transcript_error (e : exn) : string :=
  "자막을 가져오는 중 오류가 발생했습니다: " ++ exn_str e.

Definition get_video_transcript (C : Captions) (video_id : string) : M pyval :=
  try_except
    (transcript_list <- lift (list_transcripts C video_id) ;;
     selected <- lift (select_transcript C transcript_list) ;;
     transcript_data <- lift (fetch C (fst selected)) ;;
     transcript_text <- lift (format_transcript C transcript_data) ;;
     ret (PyStr transcript_text))
    (fun e => print (transcript_error e) ;;; ret PyNone).

(** ** [get_transcript_with_timestamps] *)

(** The body of the [for] loop, over the elements drawn from
    [transcript_result['segments']]. *)
Fixpoint format_segments (R : Runtime) (segments : list pyval) : outcome (list string) :=
  match segments with
  | [] => Ret []
  | segment :: rest =>
      start <~ py_getitem segment "start" ;;
      start_time <~ format_time_dyn start ;;
      text <~ py_getitem segment "text" ;;
      formatted_text <~ format_segments R rest ;;
      Ret (("[" ++ start_time ++ "] " ++ py_str R text) :: formatted_text)
  end.

Definition get_transcript_with_timestamps (R : Runtime) (C : Captions)
    (video_id : string) : M pyval :=
  transcript_result <- get_video_transcript C video_id ;;
  if negb (py_truthy transcript_result) then ret PyNone
  else
    segments <- lift (py_getitem transcript_result "segments") ;;
    items <- lift (py_iter segments) ;;
    formatted_text <- lift (format_segments R items) ;;
    ret (PyStr (join newline formatted_text)).

(** ** [summarize_transcript] *)

(** [not OPENAI_API_KEY]: [os.getenv] gives [None] or a string. *)
Definition credential_present (R : Runtime) : bool :=
  match OPENAI_API_KEY R with
  | None => false
  | Some key => negb (String.eqb key EmptyString)
  end.

Definition summary_error (e : exn) : string :=
  "요약 생성 중 오류가 발생했습니다: " ++ exn_str e.

Definition fallback_summary : pyval :=
  PyDict [ (PyStr "summary", PyStr "요약을 생성할 수 없습니다.");
           (PyStr "key_points", PyStr "주요 포인트를 추출할 수 없습니다.");
           (PyStr "topics", PyStr "주요 주제를 추출할 수 없습니다.") ].

(** ["\n".join(f"• {point}" for point in points)] *)
Definition bullet_lines (R : Runtime) (points : list pyval) : string :=
  join newline (map (fun point => "• " ++ py_str R point) points).

(** [d[key] = "\n".join(f"• {x}" for x in d[key])] *)
Definition rewrite_as_bullets (R : Runtime) (summary_dict : pyval) (key : string)
  : outcome pyval :=
  listed <~ py_getitem summary_dict key ;;
  points <~ py_iter listed ;;
  py_setitem summary_dict key (PyStr (bullet_lines R points)).

(** Lines 162-165: what is done with the value of the reply. *)
Definition render_summary (R : Runtime) (summary_dict : pyval) : outcome pyval :=
  summary_dict <~ rewrite_as_bullets R summary_dict "key_points" ;;
  summary_dict <~ rewrite_as_bullets R summary_dict "topics" ;;
  Ret summary_dict.

(** The local names of [summarize_transcript] whose values vary from call
    to call; the template and the client objects are the same in every
    call. *)
Definition summary_scope (transcript_text : string) (max_length : Z)
    (content : string) : scope :=
  [ ("transcript_text", PyStr transcript_text);
    ("max_length", PyInt max_length);
    ("result.content", PyStr content) ].

Definition summarize_transcript (I : Interpreter) (transcript_text : string)
    (max_length : Z) : Exec world pyval :=
  if negb (credential_present (runtime I))
  then exec_raise (ValueError "OpenAI API 키가 설정되지 않았습니다.")
  else
    exec_try
      (content <== finished (invoke (runtime I) transcript_text max_length) ;;
       summary_dict <== py_eval I content
                          (summary_scope transcript_text max_length content) ;;
       exec_lift (render_summary (runtime I) summary_dict))
      (fun e => finished (print (summary_error e)) =>> exec_ret fallback_summary).

(** ** [analyze_video_content] *)

(** The prompt template renders its [transcript] variable with [str]. *)
Definition analyze_video_content (I : Interpreter) (C : Captions)
    (video_id : string) : Exec world pyval :=
  transcript_result <== finished (get_video_transcript C video_id) ;;
  if negb (py_truthy transcript_result) then exec_ret PyNone
  else summarize_transcript I (py_str (runtime I) transcript_result) 500.

(** * The dashboard module [youtube_analysis.py] *)

(** ** More of Python: membership, length, indexing, [dict.get], slices *)

Definition AttributeError (v : pyval) (attribute : string) : exn :=
  OtherError "AttributeError"
    ("'" ++ type_name v ++ "' object has no attribute '" ++ attribute ++ "'").

Definition IndexError (what : string) : exn :=
  OtherError "IndexError" (what ++ " index out of range").

(** [needle in s] for two strings. *)
Fixpoint contains (needle s : string) : bool :=
  if String.prefix needle s then true
  else match s with
       | EmptyString => false
       | String _ rest => contains needle rest
       end.

(** [key in obj] for a string [key]: a key of a dict, an element of a
    list, a part of a string. *)
Definition py_contains (key : string) (obj : pyval) : outcome bool :=
  match obj with
  | PyDict entries => Ret (existsb (fun kv => key_is key (fst kv)) entries)
  | PyList items => Ret (existsb (key_is key) items)
  | PyStr s => Ret (contains key s)
  | _ => Raise (TypeError ("argument of type '" ++ type_name obj ++ "' is not iterable"))
  end.

(** [len(obj)] *)
Definition py_len (obj : pyval) : outcome Z :=
  match obj with
  | PyList items => Ret (Z.of_nat (List.length items))
  | PyDict entries => Ret (Z.of_nat (List.length entries))
  | PyStr s => Ret (Z.of_nat (List.length (code_points s)))
  | _ => Raise (TypeError ("object of type '" ++ type_name obj ++ "' has no len()"))
  end.

(** A key that equals the integer [i]: [1 == 1.0 == True]. *)
Definition key_is_int (i : Z) (k : pyval) : bool :=
  match k with
  | PyInt z => z =? i
  | PyBool b => (if b then 1 else 0) =? i
  | PyFloat q => Qeq_bool (binary64 q) (inject_Z i)
  | _ => false
  end.

Fixpoint dict_get_int (entries : list (pyval * pyval)) (i : Z) : option pyval :=
  match entries with
  | [] => None
  | (k, v) :: rest => if key_is_int i k then Some v else dict_get_int rest i
  end.

(** [seq[i]] on a list of any element type; a negative index counts from
    the end. *)
Definition nth_item {A : Type} (items : list A) (i : Z) : option A :=
  let n := Z.of_nat (List.length items) in
  if (0 <=? i) && (i <? n) then nth_error items (Z.to_nat i)
  else if (i <? 0) && (0 <=? i + n) then nth_error items (Z.to_nat (i + n))
  else None.

(** [obj[i]] for an integer [i]. *)
Definition py_index (obj : pyval) (i : Z) : outcome pyval :=
  match obj with
  | PyList items =>
      match nth_item items i with
      | Some v => Ret v
      | None => Raise (IndexError "list")
      end
  | PyStr s =>
      match nth_item (code_points s) i with
      | Some c => Ret (PyStr c)
      | None => Raise (IndexError "string")
      end
  | PyDict entries =>
      match dict_get_int entries i with
      | Some v => Ret v
      | None => Raise (OtherError "KeyError" (int_str i))
      end
  | _ => Raise (TypeError ("'" ++ type_name obj ++ "' object is not subscriptable"))
  end.

(** [obj.get(key, default)]: a method of dicts only. *)
Definition py_get (obj : pyval) (key : string) (default : pyval) : outcome pyval :=
  match obj with
  | PyDict entries =>
      match dict_get entries key with
      | Some v => Ret v
      | None => Ret default
      end
  | _ => Raise (AttributeError obj "get")
  end.

(** [items[:n]] *)
Definition py_slice_to {A : Type} (items : list A) (n : Z) : list A :=
  if 0 <=? n then firstn (Z.to_nat n) items
  else firstn (List.length items - Z.to_nat (- n)) items.

(** [sep.join(items)]: every item has to be a string. *)
Fixpoint str_items (position : Z) (items : list pyval) : outcome (list string) :=
  match items with
  | [] => Ret []
  | PyStr s :: rest =>
      parts <~ str_items (position + 1) rest ;;
      Ret (s :: parts)
  | other :: _ =>
      Raise (TypeError ("sequence item " ++ int_str position
                        ++ ": expected str instance, " ++ type_name other ++ " found"))
  end.

Definition py_join (sep : string) (items : list pyval) : outcome string :=
  parts <~ str_items 0 items ;;
  Ret (join sep parts).

(** [s.split(sep)] for a separator of one character. *)
Fixpoint split_from (sep : ascii) (cur : string) (s : string) : list string :=
  match s with
  | EmptyString => [cur]
  | String c rest =>
      if Ascii.eqb c sep then cur :: split_from sep EmptyString rest
      else split_from sep (cur ++ String c EmptyString) rest
  end.

Definition split (sep : ascii) (s : string) : list string :=
  split_from sep EmptyString s.

(** [s.lstrip(c)] for one character [c]. *)
Fixpoint lstrip (c : ascii) (s : string) : string :=
  match s with
  | EmptyString => EmptyString
  | String c' rest => if Ascii.eqb c' c then lstrip c rest else s
  end.

(** ** The services of the dashboard and what a run leaves behind *)

(** The parts of [urlparse(url)] the module reads. *)
Record parsed_url : Type := {
  hostname : option string;
  path : string;
  query : string
}.

(** What [requests.get] returns, as far as the module reads it. *)
Record http_response : Type := {
  status_code : Z;
  json : outcome pyval
}.

(** [urllib.parse], [requests], the YouTube Data API client and the chat
    model of the sentiment prompt.  [comment_threads_list id n token] is
    [commentThreads().list(part="snippet", videoId=id, maxResults=n,
    pageToken=token).execute()]; the reply of the sentiment chain may depend
    on how many requests the session sent before. *)
Record Services : Type := {
  urlparse : string -> outcome parsed_url;
  parse_qs : string -> pyval;
  requests_get : string -> outcome http_response;
  build : outcome unit;
  videos_list : string -> outcome pyval;
  comment_threads_list : string -> Z -> pyval -> outcome pyval;
  sentiment_invoke : nat -> string -> string -> string -> string -> outcome string
}.

(** A request that leaves the process. *)
Inductive call : Type :=
  | HttpGet (url : string)
  | VideosList (video_id : string)
  | CommentThreadsList (video_id : string) (max_results : Z) (page_token : pyval)
  | SentimentInvoke (comments video_summary video_key_points video_topics : string).

(** The world of [context_analysis], the messages shown with [st.error],
    and the requests sent. *)
Record session : Type := {
  console : world;
  shown_errors : list string;
  calls : list call
}.

Definition empty_session : session :=
  {| console := empty_world; shown_errors := []; calls := [] |}.

Definition App (A : Type) : Type := session -> outcome A * session.

Definition app_ret {A : Type} (a : A) : App A := fun s => (Ret a, s).

Definition app_bind {A B : Type} (c : App A) (k : A -> App B) : App B :=
  fun s =>
    match c s with
    | (Ret a, s') => k a s'
    | (Raise e, s') => (Raise e, s')
    end.

Definition app_lift {A : Type} (o : outcome A) : App A := fun s => (o, s).

Notation "x <<- c ;; k" := (app_bind c (fun x => k))
  (at level 61, c at next level, right associativity).
Notation "c >>> k" := (app_bind c (fun _ => k))
  (at level 61, right associativity).

(** A function of [context_analysis] run from the dashboard. *)
Definition on_console {A : Type} (m : Exec world A) : Exec session A :=
  fun s =>
    match m (console s) with
    | (r, w) => (r, {| console := w; shown_errors := shown_errors s; calls := calls s |})
    end.

Definition shown (message : string) (s : session) : session :=
  {| console := console s;
     shown_errors := shown_errors s ++ [message];
     calls := calls s |}.

Definition called (c : call) (s : session) : session :=
  {| console := console s;
     shown_errors := shown_errors s;
     calls := calls s ++ [c] |}.

(** [st.error(message)] *)
Definition st_error (message : string) : App unit :=
  fun s => (Ret tt, shown message s).

(** A request and its answer. *)
Definition perform {A : Type} (c : call) (answer : outcome A) : App A :=
  fun s => (answer, called c s).

Definition is_http_error (e : exn) : bool :=
  match e with
  | OtherError cls _ => String.eqb cls "HttpError"
  | _ => false
  end.

(** [try: body / except HttpError as e: handler e]: any other exception
    goes on. *)
Definition app_try_http {A : Type} (body : App A) (handler : exn -> App A) : App A :=
  fun s =>
    match body s with
    | (Ret a, s') => (Ret a, s')
    | (Raise e, s') => if is_http_error e then handler e s' else (Raise e, s')
    end.

(** [try: body / except Exception as e: handler e] *)
Definition app_try {A : Type} (body : App A) (handler : exn -> App A) : App A :=
  fun s =>
    match body s with
    | (Ret a, s') => (Ret a, s')
    | (Raise e, s') => handler e s'
    end.

(** ** [get_dislike_count] *)

Definition dislike_api_url (video_id : string) : string :=
  "https://returnyoutubedislikeapi.com/votes?videoId=" ++ video_id.

Definition get_dislike_count (S : Services) (video_id : string) : App pyval :=
  let api_url := dislike_api_url video_id in
  response <<- perform (HttpGet api_url) (requests_get S api_url) ;;
  if status_code response =? 200
  then
    data <<- app_lift (json response) ;;
    present <<- app_lift (py_contains "dislikes" data) ;;
    if present then app_lift (py_getitem data "dislikes")
    else app_ret (PyStr "Dislike count not available")
  else
    app_ret (PyStr ("Failed to fetch data. Status code: "
                    ++ int_str (status_code response))).

(** ** [extract_video_id] *)

Definition hostname_is (h : option string) (name : string) : bool :=
  match h with
  | Some s => String.eqb s name
  | None => false
  end.

Definition extract_video_id (S : Services) (url : string) : outcome pyval :=
  parsed_url <~ urlparse S url ;;
  if hostname_is (hostname parsed_url) "www.youtube.com"
     || hostname_is (hostname parsed_url) "youtube.com"
  then
    if String.prefix "/shorts/" (path parsed_url)
    then
      match nth_item (split "/" (path parsed_url)) 2 with
      | Some part => Ret (PyStr part)
      | None => Raise (IndexError "list")
      end
    else
      let query_params := parse_qs S (query parsed_url) in
      values <~ py_get query_params "v" (PyList [PyNone]) ;;
      py_index values 0
  else if hostname_is (hostname parsed_url) "youtu.be"
  then Ret (PyStr (lstrip "/" (path parsed_url)))
  else Ret PyNone.

(** ** [get_video_info] *)

Definition youtube_api_error (e : exn) : string :=
  "YouTube API 오류 발생: " ++ exn_str e.

Definition get_video_info (S : Services) (video_id : string) : App pyval :=
  app_try_http
    (app_lift (build S) >>>
     response <<- perform (VideosList video_id) (videos_list S video_id) ;;
     has_items <<- app_lift (py_contains "items" response) ;;
     some_item <<- (if has_items
                    then items <<- app_lift (py_getitem response "items") ;;
                         count <<- app_lift (py_len items) ;;
                         app_ret (0 <? count)
                    else app_ret false) ;;
     if some_item
     then
       items <<- app_lift (py_getitem response "items") ;;
       video <<- app_lift (py_index items 0) ;;
       snippet <<- app_lift (py_getitem video "snippet") ;;
       title <<- app_lift (py_getitem snippet "title") ;;
       snippet <<- app_lift (py_getitem video "snippet") ;;
       description <<- app_lift (py_getitem snippet "description") ;;
       statistics <<- app_lift (py_getitem video "statistics") ;;
       view_count <<- app_lift (py_get statistics "viewCount" (PyStr "N/A")) ;;
       statistics <<- app_lift (py_getitem video "statistics") ;;
       like_count <<- app_lift (py_get statistics "likeCount" (PyStr "N/A")) ;;
       app_ret (PyDict [ (PyStr "title", title);
                         (PyStr "description", description);
                         (PyStr "view_count", view_count);
                         (PyStr "like_count", like_count) ])
     else app_ret PyNone)
    (fun e => st_error (youtube_api_error e) >>> app_ret PyNone).

(** ** [get_video_comments] *)

(** The dict appended for one item of a page. *)
Definition comment_record (item : pyval) : outcome pyval :=
  thread <~ py_getitem item "snippet" ;;
  top <~ py_getitem thread "topLevelComment" ;;
  comment <~ py_getitem top "snippet" ;;
  author <~ py_getitem comment "authorDisplayName" ;;
  text <~ py_getitem comment "textDisplay" ;;
  likes <~ py_getitem comment "likeCount" ;;
  published_at <~ py_getitem comment "publishedAt" ;;
  Ret (PyDict [ (PyStr "author", author);
                (PyStr "text", text);
                (PyStr "likes", likes);
                (PyStr "published_at", published_at) ]).

(** The [for] loop over the items of a page. *)
Fixpoint comment_records (items : list pyval) : outcome (list pyval) :=
  match items with
  | [] => Ret []
  | item :: rest =>
      record <~ comment_record item ;;
      records <~ comment_records rest ;;
      Ret (record :: records)
  end.

(** The [while] loop, for at most [fuel] pages: [None] when the loop is
    still running after them. *)
Fixpoint collect_comments (S : Services) (fuel : nat) (video_id : string)
    (max_comments : Z) (comments : list pyval) (next_page_token : pyval)
  : App (option (list pyval)) :=
  if Z.of_nat (List.length comments) <? max_comments
  then
    match fuel with
    | O => app_ret None
    | Datatypes.S fuel' =>
        let remaining_comments := max_comments - Z.of_nat (List.length comments) in
        let current_max_results := Z.min 100 remaining_comments in
        response <<- perform
                       (CommentThreadsList video_id current_max_results next_page_token)
                       (comment_threads_list S video_id current_max_results
                          next_page_token) ;;
        listed <<- app_lift (py_getitem response "items") ;;
        items <<- app_lift (py_iter listed) ;;
        records <<- app_lift (comment_records items) ;;
        next_page_token <<- app_lift (py_get response "nextPageToken" PyNone) ;;
        if negb (py_truthy next_page_token)
        then app_ret (Some (comments ++ records)%list)
        else collect_comments S fuel' video_id max_comments
               (comments ++ records)%list next_page_token
    end
  else app_ret (Some comments).

Definition generic_error (e : exn) : string := "오류 발생: " ++ exn_str e.

Definition get_video_comments (S : Services) (fuel : nat) (video_id : string)
    (max_comments : Z) : App (option pyval) :=
  app_try
    (app_lift (build S) >>>
     collected <<- collect_comments S fuel video_id max_comments [] PyNone ;;
     match collected with
     | Some comments => app_ret (Some (PyList (py_slice_to comments max_comments)))
     | None => app_ret None
     end)
    (fun e =>
       st_error (if is_http_error e then youtube_api_error e else generic_error e)
       >>> app_ret (Some (PyList []))).

(** ** [analyze_sentiment] *)

(** [[comment['text'] for comment in comments]] *)
Fixpoint comment_texts_of (comments : list pyval) : outcome (list pyval) :=
  match comments with
  | [] => Ret []
  | comment :: rest =>
      text <~ py_getitem comment "text" ;;
      texts <~ comment_texts_of rest ;;
      Ret (text :: texts)
  end.

(** [video_content.get(key, '') if video_content else ''] *)
Definition content_field (video_content : pyval) (key : string) : outcome pyval :=
  if py_truthy video_content
  then py_get video_content key (PyStr EmptyString)
  else Ret (PyStr EmptyString).

(** [chain.invoke({...}).content] of the sentiment prompt: one request. *)
Definition invoke_sentiment (S : Services) (comments video_summary video_key_points
    video_topics : string) : App string :=
  fun s =>
    (sentiment_invoke S (List.length (calls s)) comments video_summary
       video_key_points video_topics,
     called (SentimentInvoke comments video_summary video_key_points video_topics) s).

Definition conversion_error (e : exn) : string :=
  "딕셔너리 변환 오류: " ++ exn_str e.

(** The local names of [analyze_sentiment] whose values vary from call to
    call.  Two of them are read after the evaluation: the list [comments]
    and the text [result.content]. *)
Definition sentiment_scope (comments : list pyval) (video_id : string)
    (video_content video_summary video_key_points video_topics : pyval)
    (comment_texts : list pyval) (content : string) : scope :=
  [ ("comments", PyList comments);
    ("video_id", PyStr video_id);
    ("video_content", video_content);
    ("video_summary", video_summary);
    ("video_key_points", video_key_points);
    ("video_topics", video_topics);
    ("comment_texts", PyList comment_texts);
    ("result.content", PyStr content) ].

(** [len(comments)]: the name stays bound to the list the call was given,
    whose elements an evaluated text can change. *)
Definition comment_count (locals : scope) : pyval :=
  match bound locals "comments" with
  | Some (PyList comments) => PyInt (Z.of_nat (List.length comments))
  | _ => PyInt 0
  end.

(** [result.content] *)
Definition result_content (locals : scope) : pyval :=
  match bound locals "result.content" with
  | Some content => content
  | None => PyNone
  end.

(** Both modules read [OPENAI_API_KEY] from the same environment when they
    are loaded, so the credential of the runtime is the one tested here.
    Nothing but [eval] can raise between [try] and [except], so the handler
    is the branch of the evaluation that raised. *)
Definition analyze_sentiment (I : Interpreter) (C : Captions) (S : Services)
    (comments : list pyval) (video_id : string) : Exec session pyval :=
  let R := runtime I in
  if negb (credential_present R)
  then
    finished (st_error "OpenAI API 키가 설정되지 않았습니다. .env 파일을 확인해주세요.")
    =>> exec_ret (PyDict [])
  else
    video_content <== on_console (analyze_video_content I C video_id) ;;
    video_summary <== exec_lift (content_field video_content "summary") ;;
    video_key_points <== exec_lift (content_field video_content "key_points") ;;
    video_topics <== exec_lift (content_field video_content "topics") ;;
    comment_texts <== exec_lift (comment_texts_of comments) ;;
    joined <== exec_lift (py_join newline comment_texts) ;;
    content <== finished (invoke_sentiment S joined (py_str R video_summary)
                            (py_str R video_key_points) (py_str R video_topics)) ;;
    evaluated_reply <== on_console
                          (py_eval_in I content
                             (sentiment_scope comments video_id video_content
                                video_summary video_key_points video_topics
                                comment_texts content)) ;;
    let locals := snd evaluated_reply in
    match fst evaluated_reply with
    | Ret analysis_result =>
        exec_ret (PyDict [ (PyStr "raw_analysis", analysis_result);
                           (PyStr "comment_count", comment_count locals) ])
    | Raise e =>
        finished (st_error (conversion_error e)) =>>
        exec_ret (PyDict [ (PyStr "raw_analysis", result_content locals);
                           (PyStr "comment_count", comment_count locals);
                           (PyStr "error", PyStr "딕셔너리 변환 실패") ])
    end.

(** ** A captions service and an interpreter in memory, for the examples *)

(** One caption track of a video: its language, whether speech recognition
    produced it, its timed lines, and the lines of its Korean translation
    when the service can translate it. *)
Record track : Type := {
  language_code : string;
  is_generated : bool;
  lines : list (Q * string);
  korean_translation : option (list (Q * string))
}.

Fixpoint track_in (code : string) (generated : bool) (tracks : list track)
  : option track :=
  match tracks with
  | [] => None
  | t :: rest =>
      if String.eqb (language_code t) code && Bool.eqb (is_generated t) generated
      then Some t
      else track_in code generated rest
  end.

(** For each language code in turn, a manually created track in it, else a
    generated one. *)
Fixpoint stub_find (tracks : list track) (language_codes : list string)
  : outcome track :=
  match language_codes with
  | [] => Raise (OtherError "NoTranscriptFound" "No transcripts were found for any of the requested language codes")
  | code :: rest =>
      match track_in code false tracks with
      | Some t => Ret t
      | None =>
          match track_in code true tracks with
          | Some t => Ret t
          | None => stub_find tracks rest
          end
      end
  end.

Definition stub_translate (t : track) (code : string) : outcome track :=
  match korean_translation t with
  | Some translated =>
      if String.eqb code "ko"
      then Ret {| language_code := code; is_generated := is_generated t;
                  lines := translated; korean_translation := None |}
      else Raise (OtherError "TranslationLanguageNotAvailable" "The requested translation language is not available")
  | None => Raise (OtherError "NotTranslatable" "The requested language is not translatable")
  end.

Fixpoint stub_lookup {A : Type} (table : list (string * A)) (key : string)
  : option A :=
  match table with
  | [] => None
  | (k, a) :: rest => if String.eqb k key then Some a else stub_lookup rest key
  end.

(** The service over a table of videos.  [find_transcript] takes the
    language codes only, so the call with the [translation_languages]
    keyword is a [TypeError]; the formatter puts one caption per line. *)
Definition stub_captions (videos : list (string * list track)) : Captions :=
  {| TranscriptList := list track;
     Transcript := track;
     FetchedTranscript := list (Q * string);
     generated := is_generated;
     list_transcripts := fun video_id =>
       match stub_lookup videos video_id with
       | Some tracks => Ret tracks
       | None => Raise (OtherError "VideoUnavailable" "The video is no longer available")
       end;
     find_transcript := stub_find;
     find_transcript_translation_languages := fun _ _ _ =>
       Raise (TypeError "TranscriptList.find_transcript() got an unexpected keyword argument 'translation_languages'");
     translate := stub_translate;
     fetch := fun t => Ret (lines t);
     format_transcript := fun data => Ret (join newline (map snd data)) |}.

(** An interpreter that knows the value of the source texts in [table] and
    rejects every other text, with a chat model that answers [reply] to
    every request.  [repr] is right for strings without quotes or escapes
    and for integral floats. *)
Definition stub_runtime (key : option string) (reply : outcome string)
    (table : list (string * pyval)) : Runtime :=
  {| str_repr := fun s => "'" ++ s ++ "'";
     float_repr := fun q => int_str (Qfloor q) ++ ".0";
     eval_value := fun source =>
       match stub_lookup table source with
       | Some v => Ret v
       | None => Raise (SyntaxError "invalid syntax")
       end;
     OPENAI_API_KEY := key;
     chain_invoke := fun _ _ _ => reply |}.

(** A chat model that samples: the reply to the n-th request is the n-th
    entry of [replies], and the last one from then on. *)
Definition sampling_runtime (key : option string) (replies : list string)
    (table : list (string * pyval)) : Runtime :=
  {| str_repr := fun s => "'" ++ s ++ "'";
     float_repr := fun q => int_str (Qfloor q) ++ ".0";
     eval_value := fun source =>
       match stub_lookup table source with
       | Some v => Ret v
       | None => Raise (SyntaxError "invalid syntax")
       end;
     OPENAI_API_KEY := key;
     chain_invoke := fun n _ _ => Ret (nth n replies (last replies EmptyString)) |}.

(** ** Example videos and replies *)

Definition greeting : list (Q * string) :=
  [(0 # 1, "안녕하세요"); (5 # 2, "반갑습니다")].

Definition manual_korean : track :=
  {| language_code := "ko"; is_generated := false;
     lines := greeting; korean_translation := None |}.

Definition english_only : track :=
  {| language_code := "en"; is_generated := false;
     lines := [(0 # 1, "hello"); (5 # 2, "nice to meet you")];
     korean_translation := Some greeting |}.

Definition silent_korean : track :=
  {| language_code := "ko"; is_generated := false;
     lines := []; korean_translation := None |}.

Definition recognised_korean : track :=
  {| language_code := "ko"; is_generated := true;
     lines := greeting; korean_translation := None |}.

Definition example_videos : list (string * list track) :=
  [ ("manual", [manual_korean]);
    ("english", [english_only]);
    ("silent", [silent_korean]);
    ("recognised", [recognised_korean]);
    ("bare", []) ].

Definition example_captions : Captions := stub_captions example_videos.

Definition well_formed_reply : string :=
  "{'summary': 's', 'key_points': ['a', 'b'], 'topics': ['c']}".

Definition reply_without_summary : string :=
  "{'key_points': ['a'], 'topics': ['b']}".

Definition reply_with_text_for_list : string :=
  "{'summary': 's', 'key_points': 'ab', 'topics': []}".

Definition reply_running_a_command : string :=
  "__import__('os').system('id')".

Definition reply_exiting : string :=
  "__import__('sys').exit(3)".

Definition reply_taking_the_mode : string :=
  "{'summary': __import__('os').environ.pop('MODE', 'gone'), 'key_points': [], 'topics': []}".

Definition reply_clearing_the_comments : string :=
  "(comments.clear(), {})[1]".

Definition reply_of_a_user_dict : string :=
  "__import__('collections').UserDict(key_points=[], topics=[])".

(** The values of the example replies that are literals. *)
Definition example_values : list (string * pyval) :=
  [ (well_formed_reply,
     PyDict [ (PyStr "summary", PyStr "s");
              (PyStr "key_points", PyList [PyStr "a"; PyStr "b"]);
              (PyStr "topics", PyList [PyStr "c"]) ]);
    (reply_without_summary,
     PyDict [ (PyStr "key_points", PyList [PyStr "a"]);
              (PyStr "topics", PyList [PyStr "b"]) ]);
    (reply_with_text_for_list,
     PyDict [ (PyStr "summary", PyStr "s");
              (PyStr "key_points", PyStr "ab");
              (PyStr "topics", PyList []) ]) ].

(** What running the other example replies comes to: the command is run
    and yields its exit status; [sys.exit] raises [SystemExit]; [pop] takes
    the variable [MODE] out of the environment of the process and yields
    its value, or ['gone'] without it; [clear] empties the list the local
    name [comments] is bound to; [UserDict] builds an object that is not a
    [dict]. *)
Definition example_code (source : string) (locals : scope) (globals : store)
  : option (evaluation * scope * store) :=
  if String.eqb source reply_running_a_command
  then Some (Value (PyInt 0), locals, globals)
  else if String.eqb source reply_exiting
  then Some (Leaves (Signal "SystemExit" "3"), locals, globals)
  else if String.eqb source reply_taking_the_mode
  then Some (Value (PyDict [ (PyStr "summary",
                              match bound globals "MODE" with
                              | Some mode => mode
                              | None => PyStr "gone"
                              end);
                             (PyStr "key_points", PyList []);
                             (PyStr "topics", PyList []) ]),
             locals, unbind globals "MODE")
  else if String.eqb source reply_clearing_the_comments
  then match bound locals "comments" with
       | Some _ => Some (Value (PyDict []), rebind locals "comments" (PyList []), globals)
       | None => Some (Throws (OtherError "NameError" "name 'comments' is not defined"),
                       locals, globals)
       end
  else if String.eqb source reply_of_a_user_dict
  then Some (Leaves (Foreign "UserDict"), locals, globals)
  else None.

(** A configured credential and a client that answers [reply]. *)
Definition example_runtime (reply : string) : Runtime :=
  stub_runtime (Some "sk-test") (Ret reply) example_values.

(** No credential in the environment. *)
Definition unconfigured_runtime : Runtime :=
  stub_runtime None (Ret well_formed_reply) example_values.

(** The interpreter of the examples, with a client that answers [reply]. *)
Definition example_interpreter (reply : string) : Interpreter :=
  {| runtime := example_runtime reply; code := example_code |}.


(** ** Example services of the dashboard *)

(** One item of a page of comment threads, as the Data API gives it. *)
Definition thread_item (author text : string) (likes : Z) (published_at : string)
  : pyval :=
  PyDict
    [ (PyStr "snippet",
       PyDict
         [ (PyStr "topLevelComment",
            PyDict
              [ (PyStr "snippet",
                 PyDict [ (PyStr "authorDisplayName", PyStr author);
                          (PyStr "textDisplay", PyStr text);
                          (PyStr "likeCount", PyInt likes);
                          (PyStr "publishedAt", PyStr published_at) ]) ]) ]) ].

(** A page of comment threads, with the token of the next page if any. *)
Definition comment_page (items : list pyval) (next : option string) : pyval :=
  PyDict ((PyStr "items", PyList items)
          :: match next with
             | Some token => [(PyStr "nextPageToken", PyStr token)]
             | None => []
             end).

Definition token_key (page_token : pyval) : string :=
  match page_token with
  | PyStr token => token
  | _ => EmptyString
  end.

(** Services given by tables: URLs already parsed, HTTP answers, video
    resources, and pages of comments by page token (the empty token is the
    first page).  The sentiment chain answers [reply]. *)
Definition stub_services
    (urls : list (string * parsed_url))
    (queries : list (string * pyval))
    (answers : list (string * http_response))
    (videos : list (string * pyval))
    (pages : list (string * pyval))
    (reply : outcome string) : Services :=
  {| urlparse := fun url =>
       match stub_lookup urls url with
       | Some parsed => Ret parsed
       | None => Raise (ValueError "Invalid IPv6 URL")
       end;
     parse_qs := fun q =>
       match stub_lookup queries q with
       | Some params => params
       | None => PyDict []
       end;
     requests_get := fun url =>
       match stub_lookup answers url with
       | Some response => Ret response
       | None => Raise (OtherError "ConnectionError" "Max retries exceeded")
       end;
     build := Ret tt;
     videos_list := fun video_id =>
       match stub_lookup videos video_id with
       | Some response => Ret response
       | None => Raise (OtherError "HttpError" "<HttpError 403 quotaExceeded>")
       end;
     comment_threads_list := fun _ _ page_token =>
       match stub_lookup pages (token_key page_token) with
       | Some response => Ret response
       | None => Raise (OtherError "HttpError" "<HttpError 400 invalidPageToken>")
       end;
     sentiment_invoke := fun _ _ _ _ _ => reply |}.

Definition example_urls : list (string * parsed_url) :=
  [ ("https://www.youtube.com/shorts/abc123?feature=share",
     {| hostname := Some "www.youtube.com"; path := "/shorts/abc123";
        query := "feature=share" |});
    ("https://youtu.be/9aWB1SLjowE",
     {| hostname := Some "youtu.be"; path := "/9aWB1SLjowE";
        query := EmptyString |});
    ("https://www.youtube.com/watch?v=9aWB1SLjowE",
     {| hostname := Some "www.youtube.com"; path := "/watch";
        query := "v=9aWB1SLjowE" |}) ].

Definition example_queries : list (string * pyval) :=
  [ ("v=9aWB1SLjowE", PyDict [(PyStr "v", PyList [PyStr "9aWB1SLjowE"])]);
    ("feature=share", PyDict [(PyStr "feature", PyList [PyStr "share"])]) ].

Definition example_answers : list (string * http_response) :=
  [ (dislike_api_url "liked",
     {| status_code := 200;
        json := Ret (PyDict [ (PyStr "likes", PyInt 10);
                              (PyStr "dislikes", PyInt 3) ]) |});
    (dislike_api_url "unrated",
     {| status_code := 200; json := Ret (PyDict [(PyStr "likes", PyInt 10)]) |});
    (dislike_api_url "missing",
     {| status_code := 404;
        json := Raise (OtherError "JSONDecodeError" "Expecting value") |}) ].

Definition example_video_resources : list (string * pyval) :=
  [ ("counted",
     PyDict [ (PyStr "items",
               PyList [ PyDict [ (PyStr "snippet",
                                  PyDict [ (PyStr "title", PyStr "T");
                                           (PyStr "description", PyStr "D") ]);
                                 (PyStr "statistics",
                                  PyDict [ (PyStr "viewCount", PyStr "7") ]) ] ]) ]);
    ("gone", PyDict [ (PyStr "items", PyList []) ]) ].

Definition first_comment : pyval := thread_item "kim" "좋아요" 2 "2024-01-01T00:00:00Z".
Definition second_comment : pyval := thread_item "lee" "별로" 0 "2024-01-02T00:00:00Z".
Definition third_comment : pyval := thread_item "park" "최고" 5 "2024-01-03T00:00:00Z".

(** Two pages of comments, the second one the last. *)
Definition example_pages : list (string * pyval) :=
  [ (EmptyString, comment_page [first_comment; second_comment] (Some "p2"));
    ("p2", comment_page [third_comment] None) ].

Definition example_services (reply : outcome string) : Services :=
  stub_services example_urls example_queries example_answers
    example_video_resources example_pages reply.

(** A service whose first page of comments names a page it does not
    have. *)
Definition broken_services : Services :=
  stub_services example_urls example_queries example_answers
    example_video_resources
    [ (EmptyString, comment_page [first_comment; second_comment] (Some "p3")) ]
    (Ret "{}").

(** A service that answers every request for comments with an empty page
    and a token for another page. *)
Definition looping_services : Services :=
  {| urlparse := fun _ => Raise (ValueError "Invalid IPv6 URL");
     parse_qs := fun _ => PyDict [];
     requests_get := fun _ => Raise (OtherError "ConnectionError" "Max retries exceeded");
     build := Ret tt;
     videos_list := fun _ => Ret (PyDict []);
     comment_threads_list := fun _ _ _ => Ret (comment_page [] (Some "again"));
     sentiment_invoke := fun _ _ _ _ _ => Ret "{}" |}.

(** ** Notions the statements below are written with *)

(** A field of exactly two decimal digits. *)
Definition two_digits (n : Z) : string :=
  String (digit_char (n / 10)) (String (digit_char (n mod 10)) EmptyString).

Definition digit_value (c : ascii) : option Z :=
  let k := Z.of_nat (nat_of_ascii c) in
  if (48 <=? k) && (k <=? 57) then Some (k - 48) else None.

Fixpoint digits_value_from (acc : Z) (s : string) : option Z :=
  match s with
  | EmptyString => Some acc
  | String c rest =>
      match digit_value c with
      | Some d => digits_value_from (acc * 10 + d) rest
      | None => None
      end
  end.

(** The number a non-empty string of decimal digits denotes. *)
Definition digits_value (s : string) : option Z :=
  match s with
  | EmptyString => None
  | _ => digits_value_from 0 s
  end.

(** A caption as the captions library hands it out. *)
Definition segment_of (line : Q * string) : pyval :=
  PyDict [ (PyStr "text", PyStr (snd line));
           (PyStr "start", PyFloat (fst line));
           (PyStr "duration", PyFloat (1 # 1)) ].

(** The elements of an iterable value. *)
Definition elements (v : pyval) : list pyval :=
  match py_iter v with
  | Ret items => items
  | Raise _ => []
  end.


(** Values a [for] loop accepts. *)
Definition iterable (v : pyval) : bool :=
  match v with
  | PyList _ | PyStr _ | PyDict _ => true
  | _ => false
  end.

(** [v] is a dict whose entry [key] can be iterated. *)
Definition lists_under (v : pyval) (key : string) : bool :=
  match v with
  | PyDict entries =>
      match dict_get entries key with
      | Some listed => iterable listed
      | None => false
      end
  | _ => false
  end.

(** What lines 162-165 need of the value of the reply. *)
Definition renderable (v : pyval) : bool :=
  lists_under v "key_points" && lists_under v "topics".

Definition is_str (v : pyval) : bool :=
  match v with
  | PyStr _ => true
  | _ => false
  end.

Definition is_str_list (v : pyval) : bool :=
  match v with
  | PyList items => forallb is_str items
  | _ => false
  end.

(** The shape the prompt asks for: a dict with a string under [summary] and
    lists of strings under [key_points] and [topics]. *)
Definition expected_shape (v : pyval) : bool :=
  match v with
  | PyDict entries =>
      match dict_get entries "summary", dict_get entries "key_points",
            dict_get entries "topics" with
      | Some summary, Some key_points, Some topics =>
          is_str summary && is_str_list key_points && is_str_list topics
      | _, _, _ => false
      end
  | _ => false
  end.

(** A record with the three fields of the docstring, each a string. *)
Definition summary_record (v : pyval) : bool :=
  match v with
  | PyDict entries =>
      match dict_get entries "summary", dict_get entries "key_points",
            dict_get entries "topics" with
      | Some summary, Some key_points, Some topics =>
          is_str summary && is_str key_points && is_str topics
      | _, _, _ => false
      end
  | _ => false
  end.


(** An interpreter for which what a text evaluates to does not depend on
    the state of the process, as it is for literals. *)
Definition state_blind (I : Interpreter) : Prop :=
  forall (source : string) (locals : scope) (globals1 globals2 : store),
    fst (fst (evaluate I source locals globals1))
    = fst (fst (evaluate I source locals globals2)).


(** The whole seconds a time code stands for: colon-separated decimal
    fields, each worth sixty of the next. *)
Fixpoint timecode_from (total field : Z) (s : string) : option Z :=
  match s with
  | EmptyString => Some (total * 60 + field)
  | String c rest =>
      match digit_value c with
      | Some d => timecode_from total (field * 10 + d) rest
      | None =>
          if Ascii.eqb c ":" then timecode_from (total * 60 + field) 0 rest
          else None
      end
  end.

Definition timecode_seconds (s : string) : option Z := timecode_from 0 0 s.

(** A request for a page of comments of [video_id] that asks for between
    1 and 100 results and for no more than [max_comments]. *)
Definition page_request (video_id : string) (max_comments : Z) (c : call) : Prop :=
  match c with
  | CommentThreadsList v n _ => v = video_id /\ 1 <= n <= 100 /\ n <= max_comments
  | _ => False
  end.

(** Every page that names a next page brings at least one item. *)
Definition pages_advance (S : Services) (video_id : string) : Prop :=
  forall n token response listed items next,
    comment_threads_list S video_id n token = Ret response ->
    py_getitem response "items" = Ret listed ->
    py_iter listed = Ret items ->
    py_get response "nextPageToken" PyNone = Ret next ->
    py_truthy next = true ->
    items <> [].

(** Every page is empty and names a next page. *)
Definition pages_stall (S : Services) (video_id : string) : Prop :=
  forall n token,
    exists response listed next,
      comment_threads_list S video_id n token = Ret response /\
      py_getitem response "items" = Ret listed /\
      py_iter listed = Ret [] /\
      py_get response "nextPageToken" PyNone = Ret next /\
      py_truthy next = true.

(** The message [get_video_comments] shows for an exception. *)
Definition comments_error (e : exn) : string :=
  if is_http_error e then youtube_api_error e else generic_error e.

(** A dict with an entry under [text]. *)
Definition has_text (comment : pyval) : Prop :=
  exists entries text, comment = PyDict entries /\ dict_get entries "text" = Some text.

(** ** Decimal rendering *)

Lemma digit_value_digit_char (d : Z) :
  0 <= d < 10 -> digit_value (digit_char d) = Some d.
Proof.
  intros Hd.
  assert (Hcases : d = 0 \/ d = 1 \/ d = 2 \/ d = 3 \/ d = 4 \/
                   d = 5 \/ d = 6 \/ d = 7 \/ d = 8 \/ d = 9) by lia.
  repeat (destruct Hcases as [-> | Hcases]; [reflexivity |]).
  subst d; reflexivity.
Qed.

Lemma string_app_assoc (s t u : string) :
  ((s ++ t) ++ u = s ++ (t ++ u))%string.
Proof.
  induction s as [| c s IH]; simpl; [reflexivity | now rewrite IH].
Qed.

Lemma decimal_digits_acc (fuel : nat) :
  forall n acc,
    decimal_digits fuel n acc = (decimal_digits fuel n EmptyString ++ acc)%string.
Proof.
  induction fuel as [| fuel IH]; intros n acc; simpl.
  - reflexivity.
  - destruct (n <? 10); [reflexivity |].
    rewrite IH.
    rewrite (IH (n / 10) (String (digit_char (n mod 10)) EmptyString)).
    rewrite string_app_assoc. reflexivity.
Qed.

Lemma digits_value_from_app (s t : string) :
  forall acc,
    digits_value_from acc (s ++ t) =
    match digits_value_from acc s with
    | Some v => digits_value_from v t
    | None => None
    end.
Proof.
  induction s as [| c s IH]; intros acc; simpl.
  - reflexivity.
  - destruct (digit_value c); [apply IH | reflexivity].
Qed.

Lemma digits_value_from_digit (acc d : Z) (rest : string) :
  0 <= d < 10 ->
  digits_value_from acc (String (digit_char d) rest) =
  digits_value_from (acc * 10 + d) rest.
Proof.
  intros Hd. cbn [digits_value_from].
  rewrite (digit_value_digit_char d Hd). reflexivity.
Qed.

Lemma decimal_digits_value (fuel : nat) :
  forall n,
    0 <= n < 10 ^ Z.of_nat (S fuel) ->
    digits_value_from 0 (decimal_digits fuel n EmptyString) = Some n.
Proof.
  induction fuel as [| fuel IH]; intros n Hn.
  - cbn [decimal_digits]. change (10 ^ Z.of_nat 1) with 10 in Hn.
    rewrite Z.mod_small by lia.
    rewrite digits_value_from_digit by lia. cbn [digits_value_from].
    f_equal; lia.
  - cbn [decimal_digits]. destruct (Z.ltb_spec n 10) as [Hlt | Hge].
    + rewrite Z.mod_small by lia.
      rewrite digits_value_from_digit by lia. cbn [digits_value_from].
      f_equal; lia.
    + rewrite decimal_digits_acc, digits_value_from_app.
      rewrite IH.
      * rewrite digits_value_from_digit by (apply Z.mod_pos_bound; lia).
        cbn [digits_value_from].
        f_equal; pose proof (Z.div_mod n 10); lia.
      * split; [apply Z.div_pos; lia |].
        apply Z.div_lt_upper_bound; [lia |].
        rewrite Nat2Z.inj_succ, Z.pow_succ_r in Hn by lia. lia.
Qed.

Lemma decimal_digits_nonempty (fuel : nat) (n : Z) (acc : string) :
  (String.length acc < String.length (decimal_digits fuel n acc))%nat.
Proof.
  revert n acc. induction fuel as [| fuel IH]; intros n acc; simpl.
  - lia.
  - destruct (n <? 10); simpl; [lia |].
    specialize (IH (n / 10) (String (digit_char (n mod 10)) acc)).
    simpl in IH. lia.
Qed.

Lemma decimal_fuel (n : Z) :
  0 <= n -> n < 10 ^ Z.of_nat (S (Z.to_nat (Z.log2 n))).
Proof.
  intros Hn.
  destruct (Z.eq_dec n 0) as [-> | Hnz]; [reflexivity |].
  rewrite Nat2Z.inj_succ, Z2Nat.id by apply Z.log2_nonneg.
  pose proof (Z.log2_spec n ltac:(lia)) as [_ Hlt].
  eapply Z.lt_le_trans; [exact Hlt |].
  apply Z.pow_le_mono_l. lia.
Qed.

Lemma decimal_value (n : Z) : 0 <= n -> digits_value (decimal n) = Some n.
Proof.
  intros Hn. unfold digits_value.
  pose proof (decimal_digits_nonempty (Z.to_nat (Z.log2 n)) n EmptyString) as Hlen.
  fold (decimal n) in Hlen.
  destruct (decimal n) eqn:Hdec; [simpl in Hlen; lia |].
  rewrite <- Hdec. apply decimal_digits_value.
  split; [exact Hn | apply decimal_fuel; exact Hn].
Qed.

Lemma format_02d_two_digits (n : Z) :
  0 <= n < 100 -> format_02d n = two_digits n.
Proof.
  intros Hn.
  assert (Hall : forallb
                   (fun k => String.eqb (format_02d (Z.of_nat k))
                                        (two_digits (Z.of_nat k)))
                   (seq 0 100) = true) by (vm_compute; reflexivity).
  rewrite forallb_forall in Hall.
  specialize (Hall (Z.to_nat n)).
  rewrite Z2Nat.id in Hall by lia.
  apply String.eqb_eq, Hall, in_seq. lia.
Qed.

Lemma decimal_length_large (n : Z) :
  100 <= n -> (3 <= String.length (decimal n))%nat.
Proof.
  intros Hn. unfold decimal.
  assert (Hlog : 6 <= Z.log2 n).
  { change 6 with (Z.log2 100). apply Z.log2_le_mono. exact Hn. }
  destruct (Z.to_nat (Z.log2 n)) as [| [| fuel]] eqn:Hfuel; try lia.
  cbn [decimal_digits].
  destruct (Z.ltb_spec n 10) as [Hlt | _]; [lia |].
  destruct (Z.ltb_spec (n / 10) 10) as [Hlt | _].
  - assert (10 <= n / 10) by (apply Z.div_le_lower_bound; lia). lia.
  - match goal with
    | |- (_ <= String.length (decimal_digits ?f ?k ?acc))%nat =>
        pose proof (decimal_digits_nonempty f k acc) as Hlen
    end.
    cbn [String.length] in Hlen. lia.
Qed.

Lemma format_02d_large (n : Z) : 100 <= n -> format_02d n = decimal n.
Proof.
  intros Hn. unfold format_02d.
  destruct (Z.ltb_spec n 0) as [Hneg | _]; [lia |].
  unfold zfill.
  pose proof (decimal_length_large n Hn) as Hlen.
  replace (2 - String.length (decimal n))%nat with 0%nat by lia.
  reflexivity.
Qed.

(** ** Floor and truncation *)

Lemma Qfloor_unique (x : Q) (z : Z) :
  (inject_Z z <= x)%Q -> (x < inject_Z (z + 1))%Q -> Qfloor x = z.
Proof.
  intros Hle Hlt.
  pose proof (Qfloor_le x) as Hfl.
  pose proof (Qlt_floor x) as Hfu.
  assert (H1 : (inject_Z (Qfloor x) < inject_Z (z + 1))%Q)
    by (eapply Qle_lt_trans; eassumption).
  assert (H2 : (inject_Z z < inject_Z (Qfloor x + 1))%Q)
    by (eapply Qle_lt_trans; eassumption).
  rewrite <- Zlt_Qlt in H1, H2. lia.
Qed.

Lemma Qfloor_div_unique (x : Q) (d z : Z) :
  0 < d ->
  (inject_Z (d * z) <= x)%Q -> (x < inject_Z (d * (z + 1)))%Q ->
  Qfloor (x / inject_Z d) = z.
Proof.
  intros Hd Hle Hlt.
  assert (Hdq : (0 < inject_Z d)%Q) by (change 0%Q with (inject_Z 0); now rewrite <- Zlt_Qlt).
  apply Qfloor_unique.
  - apply Qle_shift_div_l; [exact Hdq |].
    rewrite <- inject_Z_mult, Z.mul_comm. exact Hle.
  - apply Qlt_shift_div_r; [exact Hdq |].
    rewrite <- inject_Z_mult, Z.mul_comm. exact Hlt.
Qed.

Lemma py_int_nonneg (x : Q) : (0 <= x)%Q -> py_int x = Qfloor x.
Proof.
  intros Hx. unfold py_int.
  destruct (Qle_bool 0 x) eqn:Hb; [reflexivity |].
  apply Qle_bool_iff in Hx. congruence.
Qed.

Lemma py_int_inject_Z (z : Z) : py_int (inject_Z z) = z.
Proof.
  unfold py_int. destruct (Qle_bool 0 (inject_Z z)).
  - apply Qfloor_Z.
  - apply Qceiling_Z.
Qed.

Lemma py_int_comp (x y : Q) : (x == y)%Q -> py_int x = py_int y.
Proof.
  intros H. unfold py_int.
  rewrite (Qleb_comp 0%Q 0%Q (Qeq_refl 0%Q) _ _ H).
  now rewrite (Qfloor_comp _ _ H), (Qceiling_comp _ _ H).
Qed.

Lemma py_int_integer (x : Q) (z : Z) : (x == inject_Z z)%Q -> py_int x = z.
Proof.
  intros H. rewrite (py_int_comp _ _ H). apply py_int_inject_Z.
Qed.

(** ** Rounding to the nearest float *)

Lemma Qlog2_comp (x y : Q) : (x == y)%Q -> Qlog2 x = Qlog2 y.
Proof.
  intros H. unfold Qlog2.
  assert (Ha : (Qabs x == Qabs y)%Q) by (rewrite H; reflexivity).
  rewrite (Qleb_comp 1%Q 1%Q (Qeq_refl 1%Q) _ _ Ha), (Qfloor_comp _ _ Ha).
  rewrite (Qceiling_comp (/ Qabs x)%Q (/ Qabs y)%Q) by (rewrite Ha; reflexivity).
  reflexivity.
Qed.

Lemma round_half_even_comp (x y : Q) :
  (x == y)%Q -> round_half_even x = round_half_even y.
Proof.
  intros H. unfold round_half_even. rewrite (Qfloor_comp _ _ H).
  rewrite (Qcompare_comp (x - inject_Z (Qfloor y))%Q (y - inject_Z (Qfloor y))%Q
             ltac:(rewrite H; reflexivity) (1 # 2)%Q (1 # 2)%Q (Qeq_refl _)).
  reflexivity.
Qed.

Lemma binary64_comp (x y : Q) : (x == y)%Q -> binary64 x = binary64 y.
Proof.
  intros H. unfold binary64.
  rewrite (Qlog2_comp x y H).
  rewrite (round_half_even_comp (x / _)%Q (y / _)%Q) by (rewrite H; reflexivity).
  rewrite (Qeqb_comp x y H 0%Q 0%Q (Qeq_refl 0)). reflexivity.
Qed.

Lemma round_half_even_integer (x : Q) (n : Z) :
  (x == inject_Z n)%Q -> round_half_even x = n.
Proof.
  intros H. rewrite (round_half_even_comp _ _ H).
  unfold round_half_even. rewrite Qfloor_Z.
  assert (Hzero : (inject_Z n - inject_Z n == 0)%Q) by ring.
  rewrite Hzero. reflexivity.
Qed.

Lemma Qlog2_inject_Z (n : Z) : n <> 0 -> Qlog2 (inject_Z n) = Z.log2 (Z.abs n).
Proof.
  intros Hn. unfold Qlog2.
  change (Qabs (inject_Z n)) with (inject_Z (Z.abs n)).
  assert (Hone : Qle_bool 1 (inject_Z (Z.abs n)) = true).
  { apply Qle_bool_iff. change 1%Q with (inject_Z 1). rewrite <- Zle_Qle. lia. }
  rewrite Hone. now rewrite Qfloor_Z.
Qed.

Lemma pow2_nonpos (e : Z) :
  e <= 0 -> (pow2 e == / inject_Z (2 ^ (- e)))%Q.
Proof.
  intros He. unfold pow2. destruct (Z.leb_spec 0 e) as [H | H]; [| reflexivity].
  replace e with 0 by lia. reflexivity.
Qed.

(** The whole numbers up to [2 ^ 53] in magnitude are floats. *)
Lemma binary64_integer (x : Q) (n : Z) :
  (x == inject_Z n)%Q -> Z.abs n <= 2 ^ 53 -> (binary64 x == inject_Z n)%Q.
Proof.
  intros Hx Hn. rewrite (binary64_comp _ _ Hx).
  destruct (Z.eq_dec n 0) as [-> | Hnz]; [reflexivity |].
  destruct (Z.eq_dec (Z.abs n) (2 ^ 53)) as [Hmax | Hlt].
  { assert (Hcases : n = 2 ^ 53 \/ n = - 2 ^ 53) by lia.
    destruct Hcases as [-> | ->]; vm_compute; reflexivity. }
  unfold binary64.
  assert (Hnot : Qeq_bool (inject_Z n) 0 = false).
  { destruct (Qeq_bool (inject_Z n) 0) eqn:Hb; [| reflexivity].
    apply Qeq_bool_eq in Hb. change 0%Q with (inject_Z 0) in Hb.
    apply (inject_Z_injective n 0) in Hb. lia. }
  rewrite Hnot, (Qlog2_inject_Z n Hnz). cbn zeta.
  set (e := Z.max (-1074) (Z.log2 (Z.abs n) - 52)).
  assert (He : e <= 0).
  { assert (Z.log2 (Z.abs n) < 53) by (apply Z.log2_lt_pow2; lia). subst e. apply Z.max_lub; lia. }
  assert (Hpos : 0 < 2 ^ (- e)) by (apply Z.pow_pos_nonneg; lia).
  assert (Hq : ~ (inject_Z (2 ^ (- e)) == 0)%Q).
  { intros H. pose proof (proj1 (inject_Z_injective (2 ^ (- e)) 0) H) as H0.
    revert Hpos. rewrite H0. apply Z.lt_irrefl. }
  rewrite (round_half_even_integer _ (n * 2 ^ (- e))).
  - rewrite (pow2_nonpos e He), inject_Z_mult. field. exact Hq.
  - rewrite (pow2_nonpos e He), inject_Z_mult. field. exact Hq.
Qed.

(** ** Floor division and remainder of floats *)

Lemma Qltb_false (x y : Q) : (y <= x)%Q -> Qltb x y = false.
Proof.
  intros H. unfold Qltb. apply Qle_bool_iff in H. now rewrite H.
Qed.

Lemma Qltb_true (x y : Q) : (x < y)%Q -> Qltb x y = true.
Proof.
  intros H. unfold Qltb. destruct (Qle_bool y x) eqn:Hb; [| reflexivity].
  apply Qle_bool_iff in Hb. exfalso. exact (Qlt_not_le _ _ H Hb).
Qed.

Lemma inject_Z_nonneg (k : Z) : 0 <= k -> (0 <= inject_Z k)%Q.
Proof.
  intros Hk. change 0%Q with (inject_Z 0). now rewrite <- Zle_Qle.
Qed.

Lemma inject_Z_pos (k : Z) : 0 < k -> (0 < inject_Z k)%Q.
Proof.
  intros Hk. change 0%Q with (inject_Z 0). now rewrite <- Zlt_Qlt.
Qed.

Lemma opposite_signs_nonneg (r : Q) (d : Z) :
  0 < d -> (0 <= r)%Q -> opposite_signs r (inject_Z d) = false.
Proof.
  intros Hd Hr. unfold opposite_signs.
  rewrite (Qltb_false r 0 Hr), (Qltb_false (inject_Z d) 0)
    by (apply inject_Z_nonneg; lia).
  apply andb_false_r.
Qed.

Lemma opposite_signs_neg (r : Q) (d : Z) :
  0 < d -> (r < 0)%Q -> opposite_signs r (inject_Z d) = true.
Proof.
  intros Hd Hr. unfold opposite_signs.
  rewrite (Qltb_true r 0 Hr), (Qltb_false (inject_Z d) 0)
    by (apply inject_Z_nonneg; lia).
  destruct (Qeq_bool r 0) eqn:Hb; [| reflexivity].
  apply Qeq_bool_eq in Hb. rewrite Hb in Hr. discriminate Hr.
Qed.

(** A quotient that is a whole number is left as it is. *)
Lemma snap_quotient_integer (div : Q) (k : Z) :
  (div == inject_Z k)%Q -> (snap_quotient div == inject_Z k)%Q.
Proof.
  intros Hdiv. unfold snap_quotient.
  destruct (Qeq_bool div 0) eqn:Hzero.
  - apply Qeq_bool_eq in Hzero. now rewrite <- Hdiv, Hzero.
  - cbn zeta. rewrite (Qfloor_comp _ _ Hdiv), Qfloor_Z.
    rewrite (binary64_comp (div - inject_Z k) 0) by (rewrite Hdiv; ring).
    reflexivity.
Qed.

(** [x // d] and [x % d] for a non-negative float [x] of [k] times [d] and
    a rest [r], while [d * k] is a float. *)
Lemma float_divmod_nonneg (x r : Q) (d k : Z) :
  0 < d -> 0 <= k -> d * k <= 2 ^ 53 ->
  (x == inject_Z (d * k) + r)%Q -> (0 <= r)%Q -> (r < inject_Z d)%Q ->
  (py_floordiv x (inject_Z d) == inject_Z k)%Q /\
  (py_mod x (inject_Z d) == r)%Q.
Proof.
  intros Hd Hk Hbound Hx Hr0 Hr1.
  assert (Hquot : py_int (x / inject_Z d) = k).
  { rewrite py_int_nonneg.
    - apply Qfloor_div_unique; [exact Hd | |]; rewrite Hx.
      + rewrite <- (Qplus_0_r (inject_Z (d * k))) at 1.
        apply Qplus_le_r. exact Hr0.
      + replace (d * (k + 1)) with (d * k + d) by lia.
        rewrite inject_Z_plus. apply Qplus_lt_r. exact Hr1.
    - apply Qle_shift_div_l; [apply inject_Z_pos; exact Hd |].
      rewrite Qmult_0_l, Hx.
      rewrite <- (Qplus_0_r 0). apply Qplus_le_compat; [| exact Hr0].
      apply inject_Z_nonneg. lia. }
  assert (Hrem : (fmod x (inject_Z d) == r)%Q).
  { unfold fmod. rewrite Hquot, Hx, inject_Z_mult. ring. }
  assert (Hsigns : opposite_signs (fmod x (inject_Z d)) (inject_Z d) = false).
  { apply opposite_signs_nonneg; [exact Hd | now rewrite Hrem]. }
  split.
  - unfold py_floordiv. cbn zeta. rewrite Hsigns.
    apply snap_quotient_integer.
    assert (Hk' : k <= d * k) by nia.
    apply binary64_integer; [| lia].
    rewrite (binary64_integer _ (d * k)) by (try (rewrite Hrem, Hx; ring); lia).
    rewrite inject_Z_mult. field.
    intros H. pose proof (proj1 (inject_Z_injective d 0) H). lia.
  - unfold py_mod. cbn zeta. rewrite Hsigns. exact Hrem.
Qed.

(** The remainder alone needs no bound. *)
Lemma float_mod_nonneg (x r : Q) (d k : Z) :
  0 < d -> 0 <= k ->
  (x == inject_Z (d * k) + r)%Q -> (0 <= r)%Q -> (r < inject_Z d)%Q ->
  (py_mod x (inject_Z d) == r)%Q.
Proof.
  intros Hd Hk Hx Hr0 Hr1.
  assert (Hquot : py_int (x / inject_Z d) = k).
  { rewrite py_int_nonneg.
    - apply Qfloor_div_unique; [exact Hd | |]; rewrite Hx.
      + rewrite <- (Qplus_0_r (inject_Z (d * k))) at 1.
        apply Qplus_le_r. exact Hr0.
      + replace (d * (k + 1)) with (d * k + d) by lia.
        rewrite inject_Z_plus. apply Qplus_lt_r. exact Hr1.
    - apply Qle_shift_div_l; [apply inject_Z_pos; exact Hd |].
      rewrite Qmult_0_l, Hx.
      rewrite <- (Qplus_0_r 0). apply Qplus_le_compat; [| exact Hr0].
      apply inject_Z_nonneg. lia. }
  assert (Hrem : (fmod x (inject_Z d) == r)%Q).
  { unfold fmod. rewrite Hquot, Hx, inject_Z_mult. ring. }
  unfold py_mod. cbn zeta.
  rewrite opposite_signs_nonneg; [exact Hrem | exact Hd | now rewrite Hrem].
Qed.

Lemma inject_Z_minus (a b : Z) : (inject_Z (a - b) == inject_Z a - inject_Z b)%Q.
Proof.
  unfold Z.sub, Qminus. now rewrite inject_Z_plus, inject_Z_opp.
Qed.

Lemma py_int_neg (x : Q) : (x < 0)%Q -> py_int x = - Qfloor (- x).
Proof.
  intros Hx. unfold py_int.
  destruct (Qle_bool 0 x) eqn:Hb; [| reflexivity].
  apply Qle_bool_iff in Hb. exfalso. exact (Qlt_not_le _ _ Hx Hb).
Qed.

Lemma inject_Z_nonzero (d : Z) : d <> 0 -> ~ (inject_Z d == 0)%Q.
Proof.
  intros Hd H. pose proof (proj1 (inject_Z_injective d 0) H). contradiction.
Qed.

(** [x // d] and [x % d] for a float [x] that is a whole number, of either
    sign: they are the floor division and the remainder of the integers. *)
Lemma float_divmod_integer (x : Q) (z d : Z) :
  0 < d -> d <= 2 ^ 53 -> Z.abs z < 2 ^ 53 ->
  (x == inject_Z z)%Q ->
  (py_floordiv x (inject_Z d) == inject_Z (z / d))%Q /\
  (py_mod x (inject_Z d) == inject_Z (z mod d))%Q.
Proof.
  intros Hd Hdmax Hz Hx.
  pose proof (Z.div_mod z d ltac:(lia)) as Hsplit.
  pose proof (Z.mod_pos_bound z d Hd) as Hmod.
  destruct (Z.le_gt_cases 0 z) as [Hpos | Hneg].
  - assert (Hq : 0 <= z / d) by (apply Z.div_pos; lia).
    apply float_divmod_nonneg; try lia.
    + rewrite Hx, <- inject_Z_plus. now rewrite <- Hsplit.
    + apply inject_Z_nonneg. lia.
    + rewrite <- Zlt_Qlt. lia.
  - set (a := - z). set (t := a / d). set (r0 := a mod d).
    pose proof (Z.div_mod a d ltac:(lia)) as Ha. fold t r0 in Ha.
    pose proof (Z.mod_pos_bound a d Hd) as Hr0. fold r0 in Hr0.
    assert (Ht : 0 <= t) by (apply Z.div_pos; lia).
    assert (Hdt : d * t <= a) by lia.
    assert (Htle : t <= d * t) by nia.
    assert (Hd0 : ~ (inject_Z d == 0)%Q) by (apply inject_Z_nonzero; lia).
    assert (Hquot : py_int (x / inject_Z d) = - t).
    { rewrite py_int_neg.
      - f_equal. apply Qfloor_div_unique with (x := (- x)%Q) (d := d) (z := t) in Hd as Hfl.
        + rewrite <- Hfl. apply Qfloor_comp. field. exact Hd0.
        + rewrite Hx, <- inject_Z_opp, <- Zle_Qle. fold a. lia.
        + rewrite Hx, <- inject_Z_opp, <- Zlt_Qlt. fold a. lia.
      - apply Qlt_shift_div_r; [apply inject_Z_pos; exact Hd |].
        rewrite Qmult_0_l, Hx. change 0%Q with (inject_Z 0).
        rewrite <- Zlt_Qlt. exact Hneg. }
    assert (Hrem : (fmod x (inject_Z d) == inject_Z (- r0))%Q).
    { unfold fmod. rewrite Hquot, Hx, <- inject_Z_mult, <- inject_Z_minus.
      apply inject_Z_injective. unfold a in *. lia. }
    assert (Hdiv0 : (binary64 (binary64 (x - fmod x (inject_Z d)) / inject_Z d)
                     == inject_Z (- t))%Q).
    { apply binary64_integer; [| lia].
      rewrite (binary64_integer _ (d * - t)).
      - rewrite inject_Z_mult. field. exact Hd0.
      - rewrite Hrem, Hx, <- inject_Z_minus. apply inject_Z_injective.
        unfold a in *. lia.
      - unfold a in *. lia. }
    destruct (Z.eq_dec r0 0) as [Hzero | Hsome].
    + assert (Hsigns : opposite_signs (fmod x (inject_Z d)) (inject_Z d) = false).
      { apply opposite_signs_nonneg; [exact Hd |].
        rewrite Hrem, Hzero. apply Qle_refl. }
      assert (Hzd : z / d = - t /\ z mod d = 0).
      { split; [symmetry; apply (Z.div_unique z d (- t) 0)
               | symmetry; apply (Z.mod_unique z d (- t) 0)];
          unfold a in *; lia. }
      destruct Hzd as [-> ->]. split.
      * unfold py_floordiv. cbn zeta. rewrite Hsigns.
        apply snap_quotient_integer. exact Hdiv0.
      * unfold py_mod. cbn zeta. rewrite Hsigns, Hrem, Hzero. reflexivity.
    + assert (Hsigns : opposite_signs (fmod x (inject_Z d)) (inject_Z d) = true).
      { apply opposite_signs_neg; [exact Hd |].
        rewrite Hrem. change 0%Q with (inject_Z 0). rewrite <- Zlt_Qlt. lia. }
      assert (Hzd : z / d = - t - 1 /\ z mod d = d - r0).
      { split; [symmetry; apply (Z.div_unique z d (- t - 1) (d - r0))
               | symmetry; apply (Z.mod_unique z d (- t - 1) (d - r0))];
          unfold a in *; lia. }
      destruct Hzd as [-> ->]. split.
      * unfold py_floordiv. cbn zeta. rewrite Hsigns.
        apply snap_quotient_integer.
        apply binary64_integer; [| unfold a in *; lia].
        rewrite Hdiv0. rewrite inject_Z_minus. reflexivity.
      * unfold py_mod. cbn zeta. rewrite Hsigns.
        apply binary64_integer; [| lia].
        rewrite Hrem, <- inject_Z_plus. apply inject_Z_injective. lia.
Qed.

(** ** The fields of a time code *)

(** The three fields [format_time] computes for a float of [h] hours, [m]
    minutes, [s] seconds and a fraction [f] of a second. *)
Lemma format_time_fields (q f : Q) (h m s : Z) :
  (binary64 q == inject_Z (3600 * h + 60 * m + s) + f)%Q ->
  0 <= h -> 3600 * h <= 2 ^ 53 ->
  0 <= m < 60 -> 0 <= s < 60 -> (0 <= f)%Q -> (f < 1)%Q ->
  format_time q = timecode h m s.
Proof.
  intros Hq Hh Hbound Hm Hs Hf0 Hf1.
  unfold format_time. cbn zeta. set (x := binary64 q) in *.
  assert (Hone : (f < inject_Z 1)%Q) by exact Hf1.
  assert (Hrest : forall k d : Z,
             0 <= k -> k + 1 <= d ->
             (0 <= inject_Z k + f)%Q /\ (inject_Z k + f < inject_Z d)%Q).
  { intros k d Hk Hkd. split.
    - rewrite <- (Qplus_0_r 0). apply Qplus_le_compat; [| exact Hf0].
      apply inject_Z_nonneg. exact Hk.
    - eapply Qlt_le_trans; [apply Qplus_lt_r; exact Hone |].
      rewrite <- inject_Z_plus, <- Zle_Qle. exact Hkd. }
  change (3600 # 1) with (inject_Z 3600). change (60 # 1) with (inject_Z 60).
  destruct (Hrest (60 * m + s) 3600) as [Ha0 Ha1]; [lia | lia |].
  destruct (Hrest s 60) as [Hb0 Hb1]; [lia | lia |].
  destruct (float_divmod_nonneg x (inject_Z (60 * m + s) + f) 3600 h)
    as [Hhours Hrem]; try assumption; try lia.
  { rewrite Hq, !inject_Z_plus. ring. }
  destruct (float_divmod_nonneg (py_mod x (inject_Z 3600)) (inject_Z s + f) 60 m)
    as [Hminutes _]; try assumption; try lia.
  { rewrite Hrem, !inject_Z_plus. ring. }
  assert (Hseconds : (py_mod x (inject_Z 60) == inject_Z s + f)%Q).
  { apply (float_mod_nonneg x (inject_Z s + f) 60 (60 * h + m));
      try assumption; try lia.
    rewrite Hq. replace (3600 * h + 60 * m + s) with (60 * (60 * h + m) + s) by lia.
    rewrite (inject_Z_plus (60 * (60 * h + m))). ring. }
  rewrite (py_int_integer _ h Hhours), (py_int_integer _ m Hminutes).
  rewrite (py_int_comp _ _ Hseconds), py_int_nonneg by exact Hb0.
  rewrite (Qfloor_unique (inject_Z s + f) s); [reflexivity | |].
  - rewrite <- (Qplus_0_r (inject_Z s)) at 1. apply Qplus_le_r. exact Hf0.
  - rewrite inject_Z_plus. apply Qplus_lt_r. exact Hone.
Qed.

(** A float that is a whole number of seconds, of either sign, is rendered
    as the [int] of the same value. *)
Lemma format_time_whole (z : Z) :
  Z.abs z < 2 ^ 53 -> format_time (inject_Z z) = format_time_int z.
Proof.
  intros Hz. unfold format_time, format_time_int. cbn zeta.
  assert (Hx : (binary64 (inject_Z z) == inject_Z z)%Q)
    by (apply binary64_integer; [reflexivity | lia]).
  set (x := binary64 (inject_Z z)) in *.
  change (3600 # 1) with (inject_Z 3600). change (60 # 1) with (inject_Z 60).
  assert (Hsmall : forall d : Z, 0 < d <= 3600 -> d <= 2 ^ 53).
  { intros d Hd. transitivity 3600; [lia | discriminate]. }
  destruct (float_divmod_integer x z 3600) as [Hhours Hrem];
    [lia | apply Hsmall; lia | exact Hz | exact Hx |].
  pose proof (Z.mod_pos_bound z 3600 ltac:(lia)) as Hbound.
  destruct (float_divmod_integer (py_mod x (inject_Z 3600)) (z mod 3600) 60)
    as [Hminutes _]; [lia | apply Hsmall; lia | | exact Hrem |].
  { apply Z.le_lt_trans with 3600; [lia | reflexivity]. }
  destruct (float_divmod_integer x z 60) as [_ Hseconds];
    [lia | apply Hsmall; lia | exact Hz | exact Hx |].
  now rewrite (py_int_integer _ _ Hhours), (py_int_integer _ _ Hminutes),
    (py_int_integer _ _ Hseconds).
Qed.

(** ** Time codes *)

(** C5, the claim as written fails in two ways.  From one hundred hours on
    the hours field has three digits or more: [format_time 360000] is
    ["100:00:00"], not three two-digit fields.  And the fields are computed
    in floating point: the float [1e22] is 2777777777777777777 hours, 46
    minutes and 40 seconds, and its time code names another hour. *)
Lemma format_time_long_offsets :
  format_time (360000 # 1) = "100:00:00" /\
  (forall a b c : Z,
      format_time (360000 # 1)
      <> two_digits a ++ ":" ++ two_digits b ++ ":" ++ two_digits c) /\
  (binary64 (10 ^ 22 # 1) == 10 ^ 22 # 1)%Q /\
  10 ^ 22 = 3600 * 2777777777777777777 + 60 * 46 + 40 /\
  format_time (10 ^ 22 # 1) = "2777777777777777664:46:40".
Proof.
  split; [vm_compute; reflexivity |].
  split; [| repeat split; vm_compute; reflexivity].
  intros a b c Heq.
  apply (f_equal String.length) in Heq.
  vm_compute in Heq. discriminate Heq.
Qed.

(** C5, amended: a finite float offset below [2 ** 53] seconds, of [h]
    hours, [m] minutes, [s] seconds and a fraction [f] of a second, is
    rendered without the fraction, as [MM:SS] when [h = 0] and as [HH:MM:SS]
    otherwise; minutes and seconds are fields of exactly two digits, and so
    is the hours field below one hundred hours, while from one hundred hours
    on the hours field is the decimal numeral of [h], of three digits or
    more.  The four offsets of the specification are rendered as it says. *)
Theorem format_time_timecode :
  (forall (q f : Q) (h m s : Z),
      (binary64 q == inject_Z (3600 * h + 60 * m + s) + f)%Q ->
      (binary64 q < inject_Z (2 ^ 53))%Q ->
      0 <= h -> 0 <= m < 60 -> 0 <= s < 60 -> (0 <= f)%Q -> (f < 1)%Q ->
      (h = 0 -> format_time q = two_digits m ++ ":" ++ two_digits s) /\
      (0 < h < 100 ->
       format_time q = two_digits h ++ ":" ++ two_digits m ++ ":" ++ two_digits s) /\
      (100 <= h ->
       exists hours : string,
         format_time q = hours ++ ":" ++ two_digits m ++ ":" ++ two_digits s /\
         digits_value hours = Some h /\
         (3 <= String.length hours)%nat)) /\
  format_time (0 # 1) = "00:00" /\
  format_time (65 # 1) = "01:05" /\
  format_time (3725 # 1) = "01:02:05" /\
  format_time (599 # 10) = "00:59".
Proof.
  split; [| repeat split; vm_compute; reflexivity].
  intros q f h m s Hq Hmax Hh Hm Hs Hf0 Hf1.
  assert (Hbound : 3600 * h <= 2 ^ 53).
  { assert (Hlt : (inject_Z (3600 * h) < inject_Z (2 ^ 53))%Q).
    { eapply Qle_lt_trans; [| exact Hmax]. rewrite Hq.
      rewrite <- (Qplus_0_r (inject_Z (3600 * h))).
      apply Qplus_le_compat; [rewrite <- Zle_Qle; lia | exact Hf0]. }
    rewrite <- Zlt_Qlt in Hlt. lia. }
  rewrite (format_time_fields q f h m s Hq Hh Hbound Hm Hs Hf0 Hf1).
  unfold timecode.
  rewrite (format_02d_two_digits m), (format_02d_two_digits s) by lia.
  repeat split.
  - intros ->. reflexivity.
  - intros Hrange. destruct (Z.ltb_spec 0 h) as [_ | Hle]; [| lia].
    rewrite format_02d_two_digits by lia. reflexivity.
  - intros Hbig. destruct (Z.ltb_spec 0 h) as [_ | Hle]; [| lia].
    exists (decimal h). rewrite format_02d_large by exact Hbig.
    repeat split.
    + apply decimal_value. lia.
    + apply decimal_length_large. exact Hbig.
Qed.

Lemma format_time_timecode_witness :
  format_time (7451 # 2) = two_digits 1 ++ ":" ++ two_digits 2 ++ ":" ++ two_digits 5.
Proof.
  refine (proj1 (proj2 (proj1 format_time_timecode (7451 # 2) (1 # 2) 1 2 5
                          _ _ _ _ _ _ _)) _).
  - vm_compute. reflexivity.
  - vm_compute. reflexivity.
  - lia.
  - lia.
  - lia.
  - unfold Qle. simpl. lia.
  - unfold Qlt. simpl. lia.
  - lia.
Defined.

(** ** Transcript resolution *)

Ltac run_monad :=
  unfold py_eval, py_eval_in;
  unfold try_except, bind, lift, ret, print, invoke,
    exec_try, exec_bind, exec_lift, exec_ret, exec_raise, finished;
  cbn beta iota.

(** A call either returns the text of the selected track and leaves the
    world as it was, or returns [None] after printing one diagnostic. *)
Lemma get_video_transcript_cases (C : Captions) (video_id : string) (w : world) :
  (exists text : string,
      get_video_transcript C video_id w = (Ret (PyStr text), w)) \/
  (exists e : exn,
      get_video_transcript C video_id w
      = (Ret PyNone, printed (transcript_error e) w)).
Proof.
  unfold get_video_transcript. run_monad.
  destruct (list_transcripts C video_id) as [tl | e]; [| right; eauto].
  destruct (select_transcript C tl) as [[t flag] | e]; [| right; eauto].
  cbn [fst].
  destruct (fetch C t) as [data | e]; [| right; eauto].
  destruct (format_transcript C data) as [text | e]; [| right; eauto].
  left. eauto.
Qed.

Lemma select_transcript_raises (C : Captions) (tl : TranscriptList C) (e : exn) :
  select_transcript C tl = Raise e ->
  (exists e1 e2, find_transcript C tl ["ko"] = Raise e1 /\
                 find_transcript_translation_languages C tl ["ko"] ["ko"] = Raise e2) /\
  (find_transcript C tl ["en"] = Raise e \/
   exists source, find_transcript C tl ["en"] = Ret source /\
                  translate C source "ko" = Raise e).
Proof.
  unfold select_transcript, or_else, obind.
  destruct (find_transcript C tl ["ko"]) as [t | e1]; [discriminate |].
  destruct (find_transcript_translation_languages C tl ["ko"] ["ko"])
    as [t | e2]; [discriminate |].
  destruct (find_transcript C tl ["en"]) as [source | e3].
  - destruct (translate C source "ko") as [t | e4] eqn:Htr; [discriminate |].
    intros [= ->]. split; [eauto | right; eauto].
  - intros [= ->]. split; [eauto | left; reflexivity].
Qed.

(** C1, the claim as written fails in its last part: a video with a
    manually authored Korean track and a video with an English track
    translated into Korean select tracks with different flags and return
    the same result, so nothing computed from the result tells the flag. *)
Lemma get_video_transcript_drops_flag :
  select_transcript example_captions [manual_korean] = Ret (manual_korean, false) /\
  (exists t, select_transcript example_captions [english_only] = Ret (t, true)) /\
  forall reflect : outcome pyval -> bool,
    ~ (reflect (fst (get_video_transcript example_captions "manual" empty_world)) = false /\
       reflect (fst (get_video_transcript example_captions "english" empty_world)) = true).
Proof.
  split; [reflexivity |]. split; [eexists; reflexivity |].
  intros reflect [Hmanual Henglish].
  assert (Hsame : fst (get_video_transcript example_captions "manual" empty_world)
                  = fst (get_video_transcript example_captions "english" empty_world))
    by (vm_compute; reflexivity).
  rewrite Hsame in Hmanual. congruence.
Qed.

(** C1, amended: once the tracks of the video are listed, a manually
    authored Korean track that [find_transcript(['ko'])] gives is selected
    with the flag false; when neither Korean lookup gives a track, the English
    track translated into Korean is selected with the flag true.  The result
    is the plain text of the selected track; the flag stays local to the
    call. *)
Theorem get_video_transcript_fallback_chain
    (C : Captions) (video_id : string) (tl : TranscriptList C) (w : world) :
  list_transcripts C video_id = Ret tl ->
  (forall t,
      find_transcript C tl ["ko"] = Ret t ->
      generated C t = false ->
      select_transcript C tl = Ret (t, false)) /\
  (forall e1 e2 source t,
      find_transcript C tl ["ko"] = Raise e1 ->
      find_transcript_translation_languages C tl ["ko"] ["ko"] = Raise e2 ->
      find_transcript C tl ["en"] = Ret source ->
      translate C source "ko" = Ret t ->
      select_transcript C tl = Ret (t, true)) /\
  (forall t flag data text,
      select_transcript C tl = Ret (t, flag) ->
      fetch C t = Ret data ->
      format_transcript C data = Ret text ->
      get_video_transcript C video_id w = (Ret (PyStr text), w)).
Proof.
  intros Hlist. repeat split.
  - intros t H1 _. unfold select_transcript, or_else, obind. now rewrite H1.
  - intros e1 e2 source t H1 H2 H3 H4. unfold select_transcript, or_else, obind.
    now rewrite H1, H2, H3, H4.
  - intros t flag data text Hsel Hfetch Hformat.
    unfold get_video_transcript. run_monad.
    rewrite Hlist, Hsel. cbn [fst]. now rewrite Hfetch, Hformat.
Qed.

Lemma get_video_transcript_fallback_chain_witness :
  select_transcript example_captions [english_only]
  = Ret ({| language_code := "ko"; is_generated := false;
            lines := greeting; korean_translation := None |}, true).
Proof.
  refine (proj1 (proj2
            (get_video_transcript_fallback_chain example_captions "english"
               [english_only] empty_world _))
            (OtherError "NoTranscriptFound" "No transcripts were found for any of the requested language codes")
            (TypeError "TranscriptList.find_transcript() got an unexpected keyword argument 'translation_languages'")
            english_only _ _ _ _ _);
    reflexivity.
Defined.

(** The second step of the chain, against the comments of lines 32 and 37:
    [find_transcript] gives a track that speech recognition produced when
    there is no manually authored one, so the first lookup selects the
    recognised Korean track, with the flag false; and the library's
    [find_transcript] takes no [translation_languages], so the second lookup
    raises whatever the tracks are. *)
Lemma get_video_transcript_recognised_track :
  generated example_captions recognised_korean = true /\
  select_transcript example_captions [recognised_korean]
  = Ret (recognised_korean, false) /\
  forall tracks codes languages,
    find_transcript_translation_languages example_captions tracks codes languages
    = Raise (TypeError "TranscriptList.find_transcript() got an unexpected keyword argument 'translation_languages'").
Proof.
  repeat split.
Qed.



(** ** Time-coded rendering *)

(** On a list of captions the loop builds one line per caption: the time
    code in square brackets, a space and the text. *)
Lemma format_segments_lines (R : Runtime) (captions : list (Q * string)) :
  format_segments R (map segment_of captions)
  = Ret (map (fun line => "[" ++ format_time (fst line) ++ "] " ++ snd line)
             captions).
Proof.
  induction captions as [| line rest IH]; [reflexivity |].
  cbn [map format_segments]. unfold segment_of at 1.
  cbn -[format_time format_segments]. rewrite IH. reflexivity.
Qed.

Lemma get_transcript_with_timestamps_cases
    (R : Runtime) (C : Captions) (video_id : string) (w : world) :
  (exists text,
      get_video_transcript C video_id w = (Ret (PyStr text), w) /\
      text <> EmptyString /\
      get_transcript_with_timestamps R C video_id w
      = (Raise (TypeError "string indices must be integers, not 'str'"), w)) \/
  (exists w',
      get_transcript_with_timestamps R C video_id w = (Ret PyNone, w')).
Proof.
  unfold get_transcript_with_timestamps.
  destruct (get_video_transcript_cases C video_id w) as [[text H] | [e H]].
  - destruct text as [| c text].
    + right. exists w. run_monad. rewrite H. reflexivity.
    + left. exists (String c text). split; [exact H |].
      split; [discriminate |]. run_monad. rewrite H. reflexivity.
  - right. eexists. run_monad. rewrite H. reflexivity.
Qed.

(** C6, the code against the claim: for the video with the manually authored
    Korean track the call raises [TypeError] where the claim has two
    time-coded lines, and no call at all returns a rendering, because
    [get_video_transcript] returns the text and the loop indexes it with
    ['segments']. *)
Theorem get_transcript_with_timestamps_raises :
  get_transcript_with_timestamps (example_runtime well_formed_reply)
    example_captions "manual" empty_world
  = (Raise (TypeError "string indices must be integers, not 'str'"), empty_world) /\
  forall (R : Runtime) (C : Captions) (video_id : string) (w : world)
         (rendering : string),
    fst (get_transcript_with_timestamps R C video_id w) <> Ret (PyStr rendering).
Proof.
  split; [vm_compute; reflexivity |].
  intros R C video_id w rendering.
  destruct (get_transcript_with_timestamps_cases R C video_id w)
    as [(text & _ & _ & H) | [w' H]]; rewrite H; discriminate.
Qed.

(** C10: when resolution yields [None] or the empty text, the time-coded
    rendering and the content analysis both return [None], and the world
    they leave has no request to the chat model and no evaluation that was
    not there before: the summariser did not run. *)
Theorem unavailable_transcript_short_circuits
    (R : Runtime) (C : Captions) (video_id : string) (w w' : world) (v : pyval) :
  get_video_transcript C video_id w = (Ret v, w') ->
  v = PyNone \/ v = PyStr EmptyString ->
  get_transcript_with_timestamps R C video_id w = (Ret PyNone, w') /\
  analyze_video_content R C video_id w = (Ret PyNone, w') /\
  llm_requests w' = llm_requests w /\
  evaluated w' = evaluated w.
Proof.
  intros Hres Hfalsy.
  assert (Hnot : py_truthy v = false) by (destruct Hfalsy; subst v; reflexivity).
  repeat split.
  - unfold get_transcript_with_timestamps. run_monad. now rewrite Hres, Hnot.
  - unfold analyze_video_content. run_monad. now rewrite Hres, Hnot.
  - destruct (get_video_transcript_cases C video_id w) as [[text H] | [e H]];
      rewrite H in Hres; injection Hres as _ <-; reflexivity.
  - destruct (get_video_transcript_cases C video_id w) as [[text H] | [e H]];
      rewrite H in Hres; injection Hres as _ <-; reflexivity.
Qed.

Lemma unavailable_transcript_short_circuits_witness :
  get_transcript_with_timestamps (example_runtime well_formed_reply)
    example_captions "silent" empty_world = (Ret PyNone, empty_world) /\
  analyze_video_content (example_runtime well_formed_reply)
    example_captions "silent" empty_world = (Ret PyNone, empty_world) /\
  llm_requests empty_world = llm_requests empty_world /\
  evaluated empty_world = evaluated empty_world.
Proof.
  refine (unavailable_transcript_short_circuits (example_runtime well_formed_reply)
            example_captions "silent" empty_world empty_world
            (PyStr EmptyString) _ _).
  - reflexivity.
  - right. reflexivity.
Defined.

(** ** Dictionaries *)

Lemma key_is_other (key key' : string) (k : pyval) :
  key <> key' -> key_is key k = true -> key_is key' k = false.
Proof.
  intros Hne. destruct k; cbn; try discriminate.
  intros Heq. apply String.eqb_eq in Heq. subst s.
  apply String.eqb_neq. exact Hne.
Qed.

Lemma dict_get_set_same (entries : list (pyval * pyval)) (key : string) (v : pyval) :
  dict_get (dict_set entries key v) key = Some v.
Proof.
  induction entries as [| [k old] rest IH]; cbn.
  - now rewrite String.eqb_refl.
  - destruct (key_is key k) eqn:Hk; cbn; rewrite Hk; [reflexivity | exact IH].
Qed.

Lemma dict_get_set_other (entries : list (pyval * pyval)) (key key' : string)
    (v : pyval) :
  key <> key' ->
  dict_get (dict_set entries key v) key' = dict_get entries key'.
Proof.
  intros Hne. induction entries as [| [k old] rest IH]; cbn.
  - assert (Hk : String.eqb key key' = false) by now apply String.eqb_neq.
    now rewrite Hk.
  - destruct (key_is key k) eqn:Hk; cbn.
    + now rewrite (key_is_other key key' k Hne Hk).
    + rewrite IH. reflexivity.
Qed.

(** ** Rendering the value of the reply *)

Lemma py_iter_iterable (v : pyval) :
  iterable v = true -> py_iter v = Ret (elements v).
Proof.
  destruct v; cbn; intros H; try discriminate; reflexivity.
Qed.


Lemma rewrite_as_bullets_listed (R : Runtime) (entries : list (pyval * pyval))
    (key : string) (listed : pyval) :
  dict_get entries key = Some listed ->
  iterable listed = true ->
  rewrite_as_bullets R (PyDict entries) key
  = Ret (PyDict (dict_set entries key (PyStr (bullet_lines R (elements listed))))).
Proof.
  intros Hget Hit. unfold rewrite_as_bullets, obind. cbn [py_getitem].
  rewrite Hget, (py_iter_iterable listed Hit). reflexivity.
Qed.


(** A renderable value is a dict, and rendering replaces its two listings
    by their bulleted lines and touches nothing else. *)
Lemma render_summary_renderable (R : Runtime) (v : pyval) :
  renderable v = true ->
  exists entries key_points topics,
    v = PyDict entries /\
    dict_get entries "key_points" = Some key_points /\
    dict_get entries "topics" = Some topics /\
    render_summary R v
    = Ret (PyDict
             (dict_set
                (dict_set entries "key_points"
                   (PyStr (bullet_lines R (elements key_points))))
                "topics" (PyStr (bullet_lines R (elements topics))))).
Proof.
  unfold renderable, lists_under. intros Hr.
  apply andb_prop in Hr as [Hk Ht].
  destruct v as [| b | z | q | f | s | items | entries]; try discriminate.
  destruct (dict_get entries "key_points") as [key_points |] eqn:Hgk;
    [| discriminate].
  destruct (dict_get entries "topics") as [topics |] eqn:Hgt; [| discriminate].
  exists entries, key_points, topics.
  split; [reflexivity |]. split; [exact Hgk |]. split; [exact Hgt |].
  unfold render_summary.
  rewrite (rewrite_as_bullets_listed R entries "key_points" key_points Hgk Hk).
  cbn [obind].
  rewrite (rewrite_as_bullets_listed R _ "topics" topics); [reflexivity | | exact Ht].
  rewrite dict_get_set_other by discriminate. exact Hgt.
Qed.


(** ** The summariser, step by step *)

Lemma summarize_transcript_unconfigured
    (I : Interpreter) (transcript_text : string) (max_length : Z) (w : world) :
  credential_present (runtime I) = false ->
  summarize_transcript I transcript_text max_length w
  = (Raise (ValueError "OpenAI API 키가 설정되지 않았습니다."), w).
Proof.
  intros Hkey. unfold summarize_transcript. rewrite Hkey. reflexivity.
Qed.

Lemma summarize_transcript_configured
    (I : Interpreter) (transcript_text : string) (max_length : Z) (w : world) :
  credential_present (runtime I) = true ->
  summarize_transcript I transcript_text max_length w
  = let sent := requested transcript_text max_length w in
    match chain_invoke (runtime I) (List.length (llm_requests w))
            transcript_text max_length with
    | Raise e => (Finished (Ret fallback_summary), printed (summary_error e) sent)
    | Ret content =>
        match evaluate I content (summary_scope transcript_text max_length content)
                (process w) with
        | (ev, _, globals) =>
            let ran := with_process globals (executed content sent) in
            match ev with
            | Value v =>
                match render_summary (runtime I) v with
                | Ret record => (Finished (Ret record), ran)
                | Raise e =>
                    (Finished (Ret fallback_summary), printed (summary_error e) ran)
                end
            | Throws e =>
                (Finished (Ret fallback_summary), printed (summary_error e) ran)
            | Leaves x => (Escaped x, ran)
            end
        end
    end.
Proof.
  intros Hkey. unfold summarize_transcript. rewrite Hkey. cbn [negb].
  run_monad.
  destruct (chain_invoke (runtime I) (List.length (llm_requests w))
              transcript_text max_length) as [content | e]; [| reflexivity].
  cbn [process requested].
  destruct (evaluate I content (summary_scope transcript_text max_length content)
              (process w)) as [[ev locals] globals].
  destruct ev as [v | e | x]; reflexivity.
Qed.

(** The same for replies that are all literals or malformed. *)
Lemma summarize_transcript_literally
    (R : Runtime) (transcript_text : string) (max_length : Z) (w : world) :
  credential_present R = true ->
  summarize_transcript R transcript_text max_length w
  = let sent := requested transcript_text max_length w in
    match chain_invoke R (List.length (llm_requests w)) transcript_text max_length with
    | Raise e => (Finished (Ret fallback_summary), printed (summary_error e) sent)
    | Ret content =>
        let ran := executed content sent in
        match eval_value R content with
        | Raise e => (Finished (Ret fallback_summary), printed (summary_error e) ran)
        | Ret v =>
            match render_summary R v with
            | Ret record => (Finished (Ret record), ran)
            | Raise e => (Finished (Ret fallback_summary), printed (summary_error e) ran)
            end
        end
    end.
Proof.
  intros Hkey.
  rewrite (summarize_transcript_configured R transcript_text max_length w Hkey).
  cbn zeta. cbn [runtime literally].
  destruct (chain_invoke R (List.length (llm_requests w)) transcript_text max_length)
    as [content | e]; [| reflexivity].
  unfold evaluate. cbn [code runtime literally].
  destruct (eval_value R content) as [v | e]; [| reflexivity].
  destruct (render_summary R v) as [record | e]; reflexivity.
Qed.


(** ** The summariser *)

Lemma expected_shape_renderable (v : pyval) :
  expected_shape v = true -> renderable v = true.
Proof.
  unfold expected_shape, renderable, lists_under.
  destruct v as [| b | z | q | f | s | items | entries]; try discriminate.
  destruct (dict_get entries "summary") as [summary |]; [| discriminate].
  destruct (dict_get entries "key_points") as [key_points |]; [| discriminate].
  destruct (dict_get entries "topics") as [topics |]; [| discriminate].
  intros H. apply andb_prop in H as [H Ht]. apply andb_prop in H as [_ Hk].
  destruct key_points; try discriminate. destruct topics; try discriminate.
  reflexivity.
Qed.







(** A reply in the shape the prompt asks for is returned as a record of
    three strings, and so is the fallback. *)
Lemma render_summary_of_expected_shape (R : Runtime) (v : pyval) :
  expected_shape v = true ->
  exists record, render_summary R v = Ret record /\ summary_record record = true.
Proof.
  intros Hshape.
  destruct (render_summary_renderable R v (expected_shape_renderable v Hshape))
    as (entries & key_points & topics & -> & Hgk & Hgt & Hrender).
  eexists. split; [exact Hrender |].
  unfold expected_shape in Hshape. unfold summary_record.
  rewrite !dict_get_set_other by discriminate.
  rewrite !dict_get_set_same.
  destruct (dict_get entries "summary") as [summary |]; [| discriminate].
  rewrite Hgk, Hgt in Hshape.
  apply andb_prop in Hshape as [Hshape _]. apply andb_prop in Hshape as [Hs _].
  rewrite Hs. reflexivity.
Qed.

Lemma fallback_summary_record : summary_record fallback_summary = true.
Proof. reflexivity. Qed.

(** C7, the code against the claim: for a reply without the [summary] key
    the call returns the dict it evaluated to, with its two listings
    rendered and no [summary] field. *)
Theorem summarize_transcript_drops_summary :
  fst (summarize_transcript (example_runtime reply_without_summary)
         "t" 500 empty_world)
  = Ret (PyDict [ (PyStr "key_points", PyStr "• a");
                  (PyStr "topics", PyStr "• b") ]) /\
  py_getitem (PyDict [ (PyStr "key_points", PyStr "• a");
                       (PyStr "topics", PyStr "• b") ]) "summary"
  = Raise (KeyError "summary") /\
  summary_record (PyDict [ (PyStr "key_points", PyStr "• a");
                           (PyStr "topics", PyStr "• b") ]) = false.
Proof.
  repeat split; vm_compute; reflexivity.
Qed.

(** C8: without the credential the call raises [ValueError] at once: no
    request is sent, nothing is evaluated or printed, the world is as it
    was.  With the credential the call sends its one request and returns a
    record. *)
Theorem summarize_transcript_credential
    (R : Runtime) (transcript_text : string) (max_length : Z) (w : world) :
  (credential_present R = false ->
   summarize_transcript R transcript_text max_length w
   = (Raise (ValueError "OpenAI API 키가 설정되지 않았습니다."), w)) /\
  (credential_present R = true ->
   exists record w',
     summarize_transcript R transcript_text max_length w = (Ret record, w') /\
     llm_requests w' = (llm_requests w ++ [(transcript_text, max_length)])%list).
Proof.
  split.
  - apply (summarize_transcript_unconfigured R).
  - intros Hkey.
    rewrite (summarize_transcript_literally R transcript_text max_length w Hkey).
    cbn zeta.
    destruct (chain_invoke R (List.length (llm_requests w)) transcript_text max_length)
      as [content | e]; [| eauto].
    destruct (eval_value R content) as [v | e]; [| eauto].
    destruct (render_summary R v) as [record | e]; eauto.
Qed.

Lemma summarize_transcript_credential_witness :
  summarize_transcript unconfigured_runtime "t" 500 empty_world
  = (Raise (ValueError "OpenAI API 키가 설정되지 않았습니다."), empty_world) /\
  exists record w',
    summarize_transcript (example_runtime well_formed_reply) "t" 500 empty_world
    = (Ret record, w') /\
    llm_requests w' = (llm_requests empty_world ++ [("t", 500)])%list.
Proof.
  split.
  - refine (proj1 (summarize_transcript_credential unconfigured_runtime
                     "t" 500 empty_world) _).
    reflexivity.
  - refine (proj2 (summarize_transcript_credential
                     (example_runtime well_formed_reply) "t" 500 empty_world) _).
    reflexivity.
Defined.


Lemma literally_state_blind (R : Runtime) : state_blind R.
Proof.
  intros source locals globals1 globals2. reflexivity.
Qed.




(** The hypothesis on the client is needed: a client that samples gives
    a record to the first call and the fallback to the second. *)
Lemma sampling_client_varies :
  let R := sampling_runtime (Some "sk-test") [well_formed_reply; "prose"]
             example_values in
  fst (summarize_transcript R "t" 500
         (snd (summarize_transcript R "t" 500 empty_world)))
  <> fst (summarize_transcript R "t" 500 empty_world).
Proof.
  vm_compute. discriminate.
Qed.

(** ** More on time codes *)

(** Every offset splits into hours, minutes, seconds and a fraction. *)
Lemma offset_fields (q : Q) :
  let n := Qfloor q in
  let f := (q - inject_Z n)%Q in
  (q == inject_Z (3600 * (n / 3600) + 60 * (n mod 3600 / 60) + n mod 60) + f)%Q /\
  0 <= n mod 3600 / 60 < 60 /\ 0 <= n mod 60 < 60 /\
  (0 <= f)%Q /\ (f < 1)%Q.
Proof.
  cbn zeta.
  assert (Hn : 3600 * (Qfloor q / 3600) + 60 * (Qfloor q mod 3600 / 60)
               + Qfloor q mod 60 = Qfloor q).
  { pose proof (Z.div_mod (Qfloor q) 3600 ltac:(lia)) as H1.
    pose proof (Z.div_mod (Qfloor q mod 3600) 60 ltac:(lia)) as H2.
    assert (H3 : (Qfloor q mod 3600) mod 60 = Qfloor q mod 60).
    { apply Z.mod_mod_divide. exists 60. reflexivity. }
    lia. }
  rewrite Hn.
  pose proof (Z.mod_pos_bound (Qfloor q) 3600 ltac:(lia)) as Hb.
  pose proof (Z.mod_pos_bound (Qfloor q) 60 ltac:(lia)) as Hb'.
  repeat split; try lia.
  - ring.
  - apply Z.div_pos; lia.
  - apply Z.div_lt_upper_bound; lia.
  - unfold Qminus. apply -> Qle_minus_iff. apply Qfloor_le.
  - pose proof (Qlt_floor q) as H. rewrite inject_Z_plus in H.
    apply Qlt_minus_iff. apply -> Qlt_minus_iff in H.
    setoid_replace (1 + - (q - inject_Z (Qfloor q)))%Q
      with (inject_Z (Qfloor q) + inject_Z 1 + - q)%Q by ring.
    exact H.
Qed.

Lemma string_app_nil_r (s : string) : (s ++ EmptyString)%string = s.
Proof.
  induction s as [| c s IH]; cbn; [reflexivity | now rewrite IH].
Qed.

Lemma timecode_from_digits (digits rest : string) :
  forall total field v,
    digits_value_from field digits = Some v ->
    timecode_from total field (digits ++ rest) = timecode_from total v rest.
Proof.
  induction digits as [| c digits IH]; intros total field v Hv.
  - cbn in Hv. injection Hv as <-. reflexivity.
  - cbn [digits_value_from] in Hv. cbn [append timecode_from].
    destruct (digit_value c) as [d |]; [| discriminate].
    apply IH. exact Hv.
Qed.

Lemma timecode_from_colon (total field : Z) (rest : string) :
  timecode_from total field (":" ++ rest) = timecode_from (total * 60 + field) 0 rest.
Proof. reflexivity. Qed.

Lemma two_digits_value (n : Z) :
  0 <= n < 100 -> digits_value_from 0 (two_digits n) = Some n.
Proof.
  intros Hn. unfold two_digits.
  assert (0 <= n / 10 < 10).
  { split; [apply Z.div_pos; lia | apply Z.div_lt_upper_bound; lia]. }
  rewrite digits_value_from_digit by assumption.
  rewrite digits_value_from_digit by (apply Z.mod_pos_bound; lia).
  cbn [digits_value_from]. f_equal. pose proof (Z.div_mod n 10). lia.
Qed.

Lemma format_02d_value (n : Z) :
  0 <= n -> digits_value_from 0 (format_02d n) = Some n.
Proof.
  intros Hn. destruct (Z.lt_ge_cases n 100) as [Hsmall | Hlarge].
  - rewrite format_02d_two_digits by lia. apply two_digits_value. lia.
  - rewrite format_02d_large by exact Hlarge.
    apply decimal_digits_value. split; [exact Hn | apply decimal_fuel; exact Hn].
Qed.

Lemma format_time_seconds (q : Q) :
  (0 <= binary64 q)%Q -> (binary64 q < inject_Z (2 ^ 53))%Q ->
  timecode_seconds (format_time q) = Some (Qfloor (binary64 q)).
Proof.
  intros Hq Hmax.
  assert (Hn : 0 <= Qfloor (binary64 q)).
  { change 0 with (Qfloor (inject_Z 0)). apply Qfloor_resp_le. exact Hq. }
  assert (Hnmax : Qfloor (binary64 q) < 2 ^ 53).
  { rewrite Zlt_Qlt. eapply Qle_lt_trans; [apply Qfloor_le | exact Hmax]. }
  destruct (offset_fields (binary64 q)) as (Hsplit & Hm & Hs & Hf0 & Hf1).
  set (n := Qfloor (binary64 q)) in *.
  assert (Hh : 0 <= n / 3600) by (apply Z.div_pos; lia).
  assert (Hsum : 3600 * (n / 3600) + 60 * (n mod 3600 / 60) + n mod 60 = n).
  { pose proof (Z.div_mod n 3600 ltac:(lia)) as H1.
    pose proof (Z.div_mod (n mod 3600) 60 ltac:(lia)) as H2.
    assert (H3 : (n mod 3600) mod 60 = n mod 60)
      by (apply Z.mod_mod_divide; exists 60; reflexivity).
    lia. }
  assert (Hbound : 3600 * (n / 3600) <= 2 ^ 53).
  { pose proof (Z.mul_div_le n 3600 ltac:(lia)). lia. }
  rewrite (format_time_fields q _ _ _ _ Hsplit Hh Hbound Hm Hs Hf0 Hf1).
  unfold timecode_seconds, timecode.
  destruct (Z.ltb_spec 0 (n / 3600)) as [Hpos | Hzero].
  - rewrite (timecode_from_digits _ _ 0 0 _ (format_02d_value _ Hh)).
    rewrite timecode_from_colon.
    rewrite (timecode_from_digits _ _ _ 0 _ (format_02d_value _ (proj1 Hm))).
    rewrite timecode_from_colon.
    rewrite <- (string_app_nil_r (format_02d (n mod 60))).
    rewrite (timecode_from_digits _ _ _ 0 _ (format_02d_value _ (proj1 Hs))).
    cbn [timecode_from]. f_equal. lia.
  - rewrite (timecode_from_digits _ _ 0 0 _ (format_02d_value _ (proj1 Hm))).
    rewrite timecode_from_colon.
    rewrite <- (string_app_nil_r (format_02d (n mod 60))).
    rewrite (timecode_from_digits _ _ _ 0 _ (format_02d_value _ (proj1 Hs))).
    cbn [timecode_from]. f_equal. lia.
Qed.

(** X1: the time code of a non-negative float below [2 ** 53] seconds can
    be read back: its fields add up to the whole seconds of the float, so
    two such floats with the same time code differ by less than a second. *)
Theorem format_time_determines_seconds (q1 q2 : Q) :
  (0 <= binary64 q1)%Q -> (binary64 q1 < inject_Z (2 ^ 53))%Q ->
  (0 <= binary64 q2)%Q -> (binary64 q2 < inject_Z (2 ^ 53))%Q ->
  timecode_seconds (format_time q1) = Some (Qfloor (binary64 q1)) /\
  (format_time q1 = format_time q2 -> Qfloor (binary64 q1) = Qfloor (binary64 q2)).
Proof.
  intros H1 M1 H2 M2. split; [apply format_time_seconds; assumption |].
  intros Heq.
  pose proof (format_time_seconds q1 H1 M1) as E1.
  pose proof (format_time_seconds q2 H2 M2) as E2.
  rewrite Heq in E1. congruence.
Qed.

Lemma format_time_determines_seconds_witness :
  timecode_seconds (format_time (7451 # 2)) = Some (Qfloor (binary64 (7451 # 2))) /\
  (format_time (7451 # 2) = format_time (3725 # 1) ->
   Qfloor (binary64 (7451 # 2)) = Qfloor (binary64 (3725 # 1))).
Proof.
  refine (format_time_determines_seconds (7451 # 2) (3725 # 1) _ _ _ _);
    vm_compute; reflexivity || discriminate.
Defined.

(** X2: a whole number of seconds below one hour, negative ones included
    and given as a float or as an [int], is rendered as [MM:SS] of its value
    modulo 3600: a negative offset shows neither a sign nor an hours
    field. *)
Theorem format_time_below_one_hour (z : Z) :
  - 2 ^ 53 < z < 3600 ->
  format_time (inject_Z z)
  = two_digits (z mod 3600 / 60) ++ ":" ++ two_digits (z mod 60) /\
  format_time_int z
  = two_digits (z mod 3600 / 60) ++ ":" ++ two_digits (z mod 60).
Proof.
  intros Hz.
  assert (Hint : format_time_int z
                 = two_digits (z mod 3600 / 60) ++ ":" ++ two_digits (z mod 60)).
  { unfold format_time_int, timecode.
    assert (Hh : z / 3600 < 1) by (apply Z.div_lt_upper_bound; lia).
    destruct (Z.ltb_spec 0 (z / 3600)) as [Hpos | _]; [lia |].
    pose proof (Z.mod_pos_bound z 3600 ltac:(lia)) as Hb.
    pose proof (Z.mod_pos_bound z 60 ltac:(lia)) as Hb'.
    assert (0 <= z mod 3600 / 60 < 60).
    { split; [apply Z.div_pos; lia | apply Z.div_lt_upper_bound; lia]. }
    rewrite !format_02d_two_digits by lia. reflexivity. }
  split; [| exact Hint].
  rewrite format_time_whole; [exact Hint |].
  assert (H3600 : 3600 < 2 ^ 53) by reflexivity. lia.
Qed.

Lemma format_time_below_one_hour_witness :
  format_time (inject_Z (-1)) = two_digits 59 ++ ":" ++ two_digits 59 /\
  format_time_int (-1) = two_digits 59 ++ ":" ++ two_digits 59.
Proof.
  refine (format_time_below_one_hour (-1) _).
  split; [reflexivity | lia].
Defined.

(** ** More on the summariser *)



(** X3: when the request to the chat model itself fails, the call returns
    the fallback record and prints the diagnostic; one request was sent and
    nothing was evaluated. *)
Theorem summarize_transcript_client_failure
    (R : Runtime) (transcript_text : string) (max_length : Z) (w : world) (e : exn) :
  credential_present R = true ->
  chain_invoke R (List.length (llm_requests w)) transcript_text max_length = Raise e ->
  summarize_transcript R transcript_text max_length w
  = (Ret fallback_summary,
     printed (summary_error e) (requested transcript_text max_length w)) /\
  evaluated (snd (summarize_transcript R transcript_text max_length w)) = evaluated w.
Proof.
  intros Hkey Hreply.
  rewrite (summarize_transcript_literally R transcript_text max_length w Hkey).
  cbn zeta. rewrite Hreply. split; reflexivity.
Qed.

Lemma summarize_transcript_client_failure_witness :
  summarize_transcript
    (stub_runtime (Some "sk-test") (Raise (OtherError "APIConnectionError" "Connection error."))
       example_values) "t" 500 empty_world
  = (Ret fallback_summary,
     printed (summary_error (OtherError "APIConnectionError" "Connection error."))
       (requested "t" 500 empty_world)).
Proof.
  refine (proj1 (summarize_transcript_client_failure
                   (stub_runtime (Some "sk-test")
                      (Raise (OtherError "APIConnectionError" "Connection error."))
                      example_values)
                   "t" 500 empty_world
                   (OtherError "APIConnectionError" "Connection error.") _ _));
    reflexivity.
Defined.







(** * The dashboard module *)

Ltac run_app :=
  unfold app_try, app_try_http, app_bind, app_lift, app_ret, st_error, perform,
    invoke_sentiment;
  cbn beta iota.

Ltac run_app_in H :=
  unfold app_try, app_try_http, app_bind, app_lift, app_ret, st_error, perform,
    invoke_sentiment in H;
  cbn beta iota in H.

Ltac run_exec :=
  unfold exec_try, exec_bind, exec_lift, exec_ret, exec_raise, finished,
    on_console, st_error, invoke_sentiment;
  cbn beta iota.


(** ** Strings: prefixes, splitting, stripping *)

Lemma prefix_split (p s : string) :
  String.prefix p s = true -> exists t, s = (p ++ t)%string.
Proof.
  revert s. induction p as [| a p IH]; intros s H.
  - exists s. reflexivity.
  - destruct s as [| b s]; [discriminate |].
    cbn in H. destruct (ascii_dec a b) as [-> | _]; [| discriminate].
    destruct (IH s H) as [t ->]. exists t. reflexivity.
Qed.

Lemma contains_char_cons (sep c : ascii) (s : string) :
  Ascii.eqb c sep = false ->
  contains (String sep EmptyString) (String c s) = contains (String sep EmptyString) s.
Proof.
  intros Hne. cbn [contains String.prefix].
  destruct (ascii_dec sep c) as [-> | _]; [| reflexivity].
  rewrite Ascii.eqb_refl in Hne. discriminate.
Qed.

(** The first piece of a split is what precedes the first separator. *)
Lemma split_from_first (sep : ascii) (s : string) :
  forall cur,
  exists piece rest others,
    split_from sep cur s = (cur ++ piece)%string :: others /\
    s = (piece ++ rest)%string /\
    contains (String sep EmptyString) piece = false /\
    (rest = EmptyString \/ exists r, rest = String sep r).
Proof.
  induction s as [| c s IH]; intros cur.
  - exists EmptyString, EmptyString, []. cbn [split_from].
    rewrite string_app_nil_r. repeat split. now left.
  - cbn [split_from]. destruct (Ascii.eqb c sep) eqn:Hc.
    + apply Ascii.eqb_eq in Hc. subst c.
      exists EmptyString, (String sep s), (split_from sep EmptyString s).
      rewrite string_app_nil_r. repeat split. right. eauto.
    + destruct (IH (cur ++ String c EmptyString)%string)
        as (piece & rest & others & Hsplit & Hs & Hno & Hrest).
      exists (String c piece), rest, others. repeat split.
      * rewrite Hsplit, string_app_assoc. reflexivity.
      * cbn. now rewrite Hs.
      * rewrite contains_char_cons by exact Hc. exact Hno.
      * exact Hrest.
Qed.

Lemma nth_item_third {A : Type} (a b c : A) (others : list A) :
  nth_item (a :: b :: c :: others) 2 = Some c.
Proof.
  unfold nth_item. cbn [List.length].
  destruct (Z.leb_spec 0 2) as [_ | H]; [| lia].
  destruct (Z.ltb_spec 2 (Z.of_nat (Datatypes.S (Datatypes.S (Datatypes.S (List.length others))))))
    as [_ | H]; [reflexivity | lia].
Qed.

Lemma nth_item_first {A : Type} (a : A) (others : list A) :
  nth_item (a :: others) 0 = Some a.
Proof.
  unfold nth_item. cbn [List.length].
  destruct (Z.ltb_spec 0 (Z.of_nat (Datatypes.S (List.length others))))
    as [_ | H]; [reflexivity | lia].
Qed.

Lemma lstrip_spec (c : ascii) (s : string) :
  exists lead,
    s = (lead ++ lstrip c s)%string /\
    lstrip c lead = EmptyString /\
    String.prefix (String c EmptyString) (lstrip c s) = false.
Proof.
  induction s as [| c' s IH].
  - exists EmptyString. repeat split.
  - cbn [lstrip]. destruct (Ascii.eqb c' c) eqn:Hc.
    + apply Ascii.eqb_eq in Hc. subst c'.
      destruct IH as (lead & Hs & Hlead & Hstart).
      exists (String c lead). repeat split.
      * cbn. now rewrite <- Hs.
      * cbn [lstrip]. now rewrite Ascii.eqb_refl.
      * exact Hstart.
    + exists EmptyString. repeat split.
      cbn. destruct (ascii_dec c c') as [-> | _]; [| reflexivity].
      rewrite Ascii.eqb_refl in Hc. discriminate.
Qed.

(** ** [extract_video_id] *)

(** X8: on a youtube.com address whose path starts with [/shorts/] the
    index 2 into the split path is always in range: the call returns the
    part of the path between [/shorts/] and the next slash, and that part
    has no slash. *)
Theorem extract_video_id_shorts (S : Services) (url : string) (p : parsed_url) :
  urlparse S url = Ret p ->
  hostname p = Some "www.youtube.com" \/ hostname p = Some "youtube.com" ->
  String.prefix "/shorts/" (path p) = true ->
  exists id rest,
    extract_video_id S url = Ret (PyStr id) /\
    path p = "/shorts/" ++ id ++ rest /\
    contains "/" id = false /\
    (rest = EmptyString \/ exists r, rest = String "/" r).
Proof.
  intros Hparse Hhost Hshorts.
  unfold extract_video_id. rewrite Hparse. cbn [obind].
  assert (Hyt : hostname_is (hostname p) "www.youtube.com"
                || hostname_is (hostname p) "youtube.com" = true)
    by (destruct Hhost as [-> | ->]; reflexivity).
  rewrite Hyt, Hshorts.
  destruct (prefix_split _ _ Hshorts) as [tail Htail].
  destruct (split_from_first "/" tail EmptyString)
    as (piece & rest & others & Hsplit & Hs & Hno & Hrest).
  exists piece, rest.
  rewrite Htail. unfold split. cbn -[nth_item split_from].
  change (split_from "/" EmptyString (String "/" (String "s" (String "h" (String "o"
            (String "r" (String "t" (String "s" (String "/" tail)))))))))
    with (EmptyString :: "shorts" :: split_from "/" EmptyString tail).
  rewrite Hsplit, nth_item_third. cbn [append].
  repeat split; try assumption. now rewrite Hs.
Qed.

Lemma extract_video_id_shorts_witness :
  exists id rest,
    extract_video_id (example_services (Ret "x"))
      "https://www.youtube.com/shorts/abc123?feature=share" = Ret (PyStr id) /\
    "/shorts/abc123" = "/shorts/" ++ id ++ rest /\
    contains "/" id = false /\
    (rest = EmptyString \/ exists r, rest = String "/" r).
Proof.
  refine (extract_video_id_shorts (example_services (Ret "x"))
            "https://www.youtube.com/shorts/abc123?feature=share"
            {| hostname := Some "www.youtube.com"; path := "/shorts/abc123";
               query := "feature=share" |} _ _ _).
  - reflexivity.
  - left. reflexivity.
  - reflexivity.
Defined.

(** X9: on a youtu.be address the call returns the path without its
    leading slashes, all of them, and whatever follows: the result never
    starts with a slash. *)
Theorem extract_video_id_short_link (S : Services) (url : string) (p : parsed_url) :
  urlparse S url = Ret p ->
  hostname p = Some "youtu.be" ->
  exists lead id,
    extract_video_id S url = Ret (PyStr id) /\
    path p = lead ++ id /\
    lstrip "/" lead = EmptyString /\
    String.prefix "/" id = false.
Proof.
  intros Hparse Hhost.
  unfold extract_video_id. rewrite Hparse. cbn [obind]. rewrite Hhost.
  cbn [hostname_is String.eqb Ascii.eqb Bool.eqb orb].
  destruct (lstrip_spec "/" (path p)) as (lead & Hs & Hlead & Hstart).
  exists lead, (lstrip "/" (path p)). repeat split; assumption.
Qed.

Lemma extract_video_id_short_link_witness :
  exists lead id,
    extract_video_id (example_services (Ret "x")) "https://youtu.be/9aWB1SLjowE"
    = Ret (PyStr id) /\
    "/9aWB1SLjowE" = lead ++ id /\
    lstrip "/" lead = EmptyString /\
    String.prefix "/" id = false.
Proof.
  refine (extract_video_id_short_link (example_services (Ret "x"))
            "https://youtu.be/9aWB1SLjowE"
            {| hostname := Some "youtu.be"; path := "/9aWB1SLjowE";
               query := EmptyString |} _ _); reflexivity.
Defined.

(** X10: once the address is parsed, and with query parameters as
    [parse_qs] builds them (a dict whose values are non-empty lists of
    strings), the call never raises: it returns a string or [None]. *)
Theorem extract_video_id_total (S : Services) (url : string) (p : parsed_url)
    (params : list (pyval * pyval)) :
  urlparse S url = Ret p ->
  parse_qs S (query p) = PyDict params ->
  (forall values, dict_get params "v" = Some values ->
                  exists first rest, values = PyList (PyStr first :: rest)) ->
  exists v,
    extract_video_id S url = Ret v /\
    (v = PyNone \/ exists id, v = PyStr id).
Proof.
  intros Hparse Hquery Hvalues.
  unfold extract_video_id. rewrite Hparse. cbn [obind].
  destruct (hostname_is (hostname p) "www.youtube.com"
            || hostname_is (hostname p) "youtube.com") eqn:Hyt.
  - destruct (String.prefix "/shorts/" (path p)) eqn:Hshorts.
    + destruct (prefix_split _ _ Hshorts) as [tail Htail].
      destruct (split_from_first "/" tail EmptyString)
        as (piece & rest & others & Hsplit & _).
      rewrite Htail. unfold split.
      change (split_from "/" EmptyString ("/shorts/" ++ tail))
        with (EmptyString :: "shorts" :: split_from "/" EmptyString tail).
      rewrite Hsplit, nth_item_third. eauto.
    + rewrite Hquery. cbn [py_get].
      destruct (dict_get params "v") as [values |] eqn:Hv.
      * destruct (Hvalues values eq_refl) as (first & rest & ->).
        cbn [obind py_index]. rewrite nth_item_first. eauto.
      * cbn [obind py_index]. rewrite nth_item_first. eauto.
  - destruct (hostname_is (hostname p) "youtu.be"); eauto.
Qed.

Lemma extract_video_id_total_witness :
  exists v,
    extract_video_id (example_services (Ret "x"))
      "https://www.youtube.com/watch?v=9aWB1SLjowE" = Ret v /\
    (v = PyNone \/ exists id, v = PyStr id).
Proof.
  refine (extract_video_id_total (example_services (Ret "x"))
            "https://www.youtube.com/watch?v=9aWB1SLjowE"
            {| hostname := Some "www.youtube.com"; path := "/watch";
               query := "v=9aWB1SLjowE" |}
            [(PyStr "v", PyList [PyStr "9aWB1SLjowE"])] _ _ _).
  - reflexivity.
  - reflexivity.
  - intros values Hv. injection Hv as <-. eauto.
Defined.

(** ** [get_dislike_count] *)

Lemma existsb_key_is (entries : list (pyval * pyval)) (key : string) :
  existsb (fun kv => key_is key (fst kv)) entries
  = match dict_get entries key with
    | Some _ => true
    | None => false
    end.
Proof.
  induction entries as [| [k v] rest IH]; cbn; [reflexivity |].
  destruct (key_is key k); [reflexivity | exact IH].
Qed.

(** X11: one request is sent.  An answer with a status other than 200 gives
    the text with the status, whatever the body is, even one that cannot be
    decoded.  A 200 answer whose body is a JSON object never raises: it gives
    the entry under [dislikes], or the text [Dislike count not available]
    when the object has no such key. *)
Theorem get_dislike_count_answers
    (S : Services) (video_id : string) (response : http_response) (s : session) :
  requests_get S (dislike_api_url video_id) = Ret response ->
  (status_code response <> 200 ->
   get_dislike_count S video_id s
   = (Ret (PyStr ("Failed to fetch data. Status code: "
                  ++ int_str (status_code response))),
      called (HttpGet (dislike_api_url video_id)) s)) /\
  (forall entries,
      status_code response = 200 ->
      json response = Ret (PyDict entries) ->
      get_dislike_count S video_id s
      = (Ret match dict_get entries "dislikes" with
             | Some count => count
             | None => PyStr "Dislike count not available"
             end,
         called (HttpGet (dislike_api_url video_id)) s)).
Proof.
  intros Hget. unfold get_dislike_count. run_app. rewrite Hget. split.
  - intros Hstatus.
    destruct (Z.eqb_spec (status_code response) 200) as [H | _]; [contradiction |].
    reflexivity.
  - intros entries Hstatus Hjson. rewrite Hstatus, Hjson. cbn [Z.eqb Pos.eqb].
    cbn [py_contains]. rewrite existsb_key_is. cbn [py_getitem].
    destruct (dict_get entries "dislikes"); reflexivity.
Qed.

Lemma get_dislike_count_answers_witness :
  get_dislike_count (example_services (Ret "x")) "unrated" empty_session
  = (Ret (PyStr "Dislike count not available"),
     called (HttpGet (dislike_api_url "unrated")) empty_session).
Proof.
  refine (proj2 (get_dislike_count_answers (example_services (Ret "x")) "unrated"
                   {| status_code := 200;
                      json := Ret (PyDict [(PyStr "likes", PyInt 10)]) |}
                   empty_session _)
                [(PyStr "likes", PyInt 10)] _ _); reflexivity.
Defined.

(** ** [get_video_info] *)

(** X12: only [HttpError] is handled.  When the request fails with it the
    call shows the error and returns [None]; any other exception of the
    request leaves the call, and so does the [KeyError] of a video resource
    without a [snippet], with no error shown. *)
Theorem get_video_info_errors (S : Services) (video_id : string) (s : session) :
  build S = Ret tt ->
  (forall e,
      videos_list S video_id = Raise e ->
      get_video_info S video_id s
      = if is_http_error e
        then (Ret PyNone,
              shown (youtube_api_error e) (called (VideosList video_id) s))
        else (Raise e, called (VideosList video_id) s)) /\
  (forall response video others,
      videos_list S video_id = Ret (PyDict response) ->
      dict_get response "items" = Some (PyList (PyDict video :: others)) ->
      dict_get video "snippet" = None ->
      get_video_info S video_id s
      = (Raise (KeyError "snippet"), called (VideosList video_id) s)).
Proof.
  intros Hbuild. unfold get_video_info. run_app. rewrite Hbuild. split.
  - intros e Hreq. rewrite Hreq. destruct (is_http_error e); reflexivity.
  - intros response video others Hreq Hitems Hsnippet. rewrite Hreq.
    cbn [py_contains]. rewrite existsb_key_is, Hitems.
    cbn [py_getitem]. rewrite Hitems.
    cbn [py_len py_index]. rewrite nth_item_first.
    destruct (Z.ltb_spec 0 (Z.of_nat (List.length (PyDict video :: others))))
      as [_ | H]; [| cbn [List.length] in H; lia].
    cbn [py_getitem]. rewrite Hsnippet. reflexivity.
Qed.

Lemma get_video_info_errors_witness :
  get_video_info (example_services (Ret "x")) "nope" empty_session
  = (Ret PyNone,
     shown (youtube_api_error (OtherError "HttpError" "<HttpError 403 quotaExceeded>"))
       (called (VideosList "nope") empty_session)).
Proof.
  refine (proj1 (get_video_info_errors (example_services (Ret "x")) "nope"
                   empty_session _)
                (OtherError "HttpError" "<HttpError 403 quotaExceeded>") _);
    reflexivity.
Defined.

(** X13: for a video resource with a title, a description and statistics,
    the call returns the four fields and shows nothing; a counter the
    statistics do not have is reported as the text [N/A]. *)
Theorem get_video_info_defaults
    (S : Services) (video_id : string) (s : session)
    (response video snippet statistics : list (pyval * pyval))
    (others : list pyval) (title description : pyval) :
  build S = Ret tt ->
  videos_list S video_id = Ret (PyDict response) ->
  dict_get response "items" = Some (PyList (PyDict video :: others)) ->
  dict_get video "snippet" = Some (PyDict snippet) ->
  dict_get snippet "title" = Some title ->
  dict_get snippet "description" = Some description ->
  dict_get video "statistics" = Some (PyDict statistics) ->
  get_video_info S video_id s
  = (Ret (PyDict
            [ (PyStr "title", title);
              (PyStr "description", description);
              (PyStr "view_count",
               match dict_get statistics "viewCount" with
               | Some count => count
               | None => PyStr "N/A"
               end);
              (PyStr "like_count",
               match dict_get statistics "likeCount" with
               | Some count => count
               | None => PyStr "N/A"
               end) ]),
     called (VideosList video_id) s).
Proof.
  intros Hbuild Hreq Hitems Hsnippet Htitle Hdescription Hstatistics.
  unfold get_video_info. run_app. rewrite Hbuild, Hreq.
  cbn [py_contains]. rewrite existsb_key_is, Hitems.
  cbn [py_getitem]. rewrite Hitems.
  cbn [py_len py_index]. rewrite nth_item_first.
  destruct (Z.ltb_spec 0 (Z.of_nat (List.length (PyDict video :: others))))
    as [_ | H]; [| cbn [List.length] in H; lia].
  cbn [py_getitem]. rewrite Hsnippet. cbn [py_getitem].
  rewrite Htitle, Hdescription, Hstatistics. cbn [py_get].
  destruct (dict_get statistics "viewCount");
    destruct (dict_get statistics "likeCount"); reflexivity.
Qed.

Lemma get_video_info_defaults_witness :
  get_video_info (example_services (Ret "x")) "counted" empty_session
  = (Ret (PyDict [ (PyStr "title", PyStr "T");
                   (PyStr "description", PyStr "D");
                   (PyStr "view_count", PyStr "7");
                   (PyStr "like_count", PyStr "N/A") ]),
     called (VideosList "counted") empty_session).
Proof.
  refine (get_video_info_defaults (example_services (Ret "x")) "counted"
            empty_session
            [ (PyStr "items",
               PyList [ PyDict [ (PyStr "snippet",
                                  PyDict [ (PyStr "title", PyStr "T");
                                           (PyStr "description", PyStr "D") ]);
                                 (PyStr "statistics",
                                  PyDict [ (PyStr "viewCount", PyStr "7") ]) ] ]) ]
            [ (PyStr "snippet",
               PyDict [ (PyStr "title", PyStr "T");
                        (PyStr "description", PyStr "D") ]);
              (PyStr "statistics", PyDict [ (PyStr "viewCount", PyStr "7") ]) ]
            [ (PyStr "title", PyStr "T"); (PyStr "description", PyStr "D") ]
            [ (PyStr "viewCount", PyStr "7") ]
            [] (PyStr "T") (PyStr "D") _ _ _ _ _ _ _); reflexivity.
Defined.

(** ** [get_video_comments] *)

Lemma comment_records_length (items records : list pyval) :
  comment_records items = Ret records ->
  List.length records = List.length items.
Proof.
  revert records. induction items as [| item rest IH]; intros records H.
  - injection H as <-. reflexivity.
  - cbn [comment_records] in H. unfold obind at 1 in H.
    destruct (comment_record item) as [record |]; [| discriminate].
    unfold obind in H.
    destruct (comment_records rest) as [others |]; [| discriminate].
    injection H as <-. cbn. f_equal. apply IH. reflexivity.
Qed.

(** One turn of the loop, when it is entered with fuel left. *)
Lemma collect_comments_step (S : Services) (fuel : nat) (video_id : string)
    (max_comments : Z) (comments : list pyval) (token : pyval) (s : session) :
  Z.of_nat (List.length comments) < max_comments ->
  let n := Z.min 100 (max_comments - Z.of_nat (List.length comments)) in
  let s1 := called (CommentThreadsList video_id n token) s in
  collect_comments S (Datatypes.S fuel) video_id max_comments comments token s
  = match comment_threads_list S video_id n token with
    | Raise e => (Raise e, s1)
    | Ret response =>
        match py_getitem response "items" with
        | Raise e => (Raise e, s1)
        | Ret listed =>
            match py_iter listed with
            | Raise e => (Raise e, s1)
            | Ret items =>
                match comment_records items with
                | Raise e => (Raise e, s1)
                | Ret records =>
                    match py_get response "nextPageToken" PyNone with
                    | Raise e => (Raise e, s1)
                    | Ret next =>
                        if negb (py_truthy next)
                        then (Ret (Some (comments ++ records)%list), s1)
                        else collect_comments S fuel video_id max_comments
                               (comments ++ records)%list next s1
                    end
                end
            end
        end
    end.
Proof.
  intros Hlt. cbn zeta. cbn [collect_comments].
  destruct (Z.ltb_spec (Z.of_nat (List.length comments)) max_comments) as [_ | H];
    [| lia].
  run_app.
  destruct (comment_threads_list S video_id _ token) as [response | e];
    [| reflexivity].
  destruct (py_getitem response "items") as [listed | e]; [| reflexivity].
  destruct (py_iter listed) as [items | e]; [| reflexivity].
  destruct (comment_records items) as [records | e]; [| reflexivity].
  destruct (py_get response "nextPageToken" PyNone) as [next | e]; [| reflexivity].
  destruct (negb (py_truthy next)); reflexivity.
Qed.

Lemma collect_comments_done (S : Services) (fuel : nat) (video_id : string)
    (max_comments : Z) (comments : list pyval) (token : pyval) (s : session) :
  max_comments <= Z.of_nat (List.length comments) ->
  collect_comments S fuel video_id max_comments comments token s
  = (Ret (Some comments), s).
Proof.
  intros Hge. destruct fuel; cbn [collect_comments];
    destruct (Z.ltb_spec (Z.of_nat (List.length comments)) max_comments);
    try lia; reflexivity.
Qed.

(** What the loop leaves behind: requests for pages only, each of the right
    size; what it returns extends what it started from. *)
Lemma collect_comments_footprint (S : Services) (video_id : string) (max_comments : Z)
    (fuel : nat) :
  forall comments token s r s',
    collect_comments S fuel video_id max_comments comments token s = (r, s') ->
    console s' = console s /\
    shown_errors s' = shown_errors s /\
    (exists added,
        calls s' = (calls s ++ added)%list /\
        Forall (page_request video_id max_comments) added) /\
    (forall result, r = Ret (Some result) ->
                    exists more, result = (comments ++ more)%list).
Proof.
  assert (Hnothing : forall comments (s : session) (o : option (list pyval)),
             (forall result, o = Some result -> result = comments) ->
             console s = console s /\
             shown_errors s = shown_errors s /\
             (exists added,
                 calls s = (calls s ++ added)%list /\
                 Forall (page_request video_id max_comments) added) /\
             (forall result, Ret o = Ret (Some result) ->
                             exists more, result = (comments ++ more)%list)).
  { intros comments s o Ho.
    split; [reflexivity |]. split; [reflexivity |]. split.
    - exists []. split; [now rewrite app_nil_r | constructor].
    - intros result Hr. injection Hr as Hr. rewrite (Ho result Hr).
      exists []. now rewrite app_nil_r. }
  induction fuel as [| fuel IH]; intros comments token s r s' Hrun.
  - cbn [collect_comments] in Hrun.
    destruct (Z.of_nat (List.length comments) <? max_comments);
      injection Hrun as <- <-; apply Hnothing.
    + intros result Hr. discriminate Hr.
    + intros result Hr. now injection Hr as <-.
  - destruct (Z.lt_ge_cases (Z.of_nat (List.length comments)) max_comments)
      as [Hlt | Hge].
    + rewrite (collect_comments_step S fuel video_id max_comments comments token s Hlt)
        in Hrun.
      cbn zeta in Hrun.
      set (n := Z.min 100 (max_comments - Z.of_nat (List.length comments))) in *.
      assert (Hreq : page_request video_id max_comments
                       (CommentThreadsList video_id n token)).
      { cbn. subst n. repeat split; lia. }
      assert (Hstop : forall (o : outcome (option (list pyval))),
                 (forall result, o = Ret (Some result) ->
                                 exists more, result = (comments ++ more)%list) ->
                 (o, called (CommentThreadsList video_id n token) s) = (r, s') ->
                 console s' = console s /\
                 shown_errors s' = shown_errors s /\
                 (exists added,
                     calls s' = (calls s ++ added)%list /\
                     Forall (page_request video_id max_comments) added) /\
                 (forall result, r = Ret (Some result) ->
                                 exists more, result = (comments ++ more)%list)).
      { intros o Ho Heq. injection Heq as <- <-.
        split; [reflexivity |]. split; [reflexivity |]. split; [| exact Ho].
        exists [CommentThreadsList video_id n token]. split; [reflexivity |].
        constructor; [exact Hreq | constructor]. }
      destruct (comment_threads_list S video_id n token) as [response | e];
        [| eapply Hstop; [| exact Hrun]; intros ? Hr; discriminate Hr].
      destruct (py_getitem response "items") as [listed | e];
        [| eapply Hstop; [| exact Hrun]; intros ? Hr; discriminate Hr].
      destruct (py_iter listed) as [items | e];
        [| eapply Hstop; [| exact Hrun]; intros ? Hr; discriminate Hr].
      destruct (comment_records items) as [records | e];
        [| eapply Hstop; [| exact Hrun]; intros ? Hr; discriminate Hr].
      destruct (py_get response "nextPageToken" PyNone) as [next | e];
        [| eapply Hstop; [| exact Hrun]; intros ? Hr; discriminate Hr].
      destruct (negb (py_truthy next)).
      * eapply Hstop; [| exact Hrun]. intros result Hr. injection Hr as <-. eauto.
      * destruct (IH _ _ _ _ _ Hrun) as (Hc & He & (added & Hcalls & Hall) & Hres).
        split; [exact Hc |]. split; [exact He |]. split.
        -- exists (CommentThreadsList video_id n token :: added). split.
           ++ rewrite Hcalls. cbn [calls called]. now rewrite <- app_assoc.
           ++ constructor; assumption.
        -- intros result Hr. destruct (Hres result Hr) as [more ->].
           exists (records ++ more)%list. now rewrite app_assoc.
    + rewrite (collect_comments_done S _ video_id max_comments comments token s Hge)
        in Hrun.
      injection Hrun as <- <-. apply Hnothing.
      intros result Hr. now injection Hr as <-.
Qed.

Lemma get_video_comments_run (S : Services) (fuel : nat) (video_id : string)
    (max_comments : Z) (s : session) :
  get_video_comments S fuel video_id max_comments s
  = match build S with
    | Raise e =>
        (Ret (Some (PyList [])),
         shown (if is_http_error e then youtube_api_error e else generic_error e) s)
    | Ret _ =>
        match collect_comments S fuel video_id max_comments [] PyNone s with
        | (Ret (Some comments), s') =>
            (Ret (Some (PyList (py_slice_to comments max_comments))), s')
        | (Ret None, s') => (Ret None, s')
        | (Raise e, s') =>
            (Ret (Some (PyList [])),
             shown (if is_http_error e then youtube_api_error e else generic_error e) s')
        end
    end.
Proof.
  unfold get_video_comments. run_app.
  destruct (build S) as [[] | e]; [| reflexivity].
  destruct (collect_comments S fuel video_id max_comments [] PyNone s)
    as [[[comments |] | e] s']; reflexivity.
Qed.

Lemma py_slice_to_length {A : Type} (items : list A) (n : Z) :
  0 <= n -> Z.of_nat (List.length (py_slice_to items n)) <= n.
Proof.
  intros Hn. unfold py_slice_to.
  destruct (Z.leb_spec 0 n) as [_ | H]; [| lia].
  pose proof (firstn_le_length (Z.to_nat n) items) as Hlen.
  assert (Hmin : (List.length (firstn (Z.to_nat n) items) <= Z.to_nat n)%nat).
  { rewrite length_firstn. apply Nat.le_min_l. }
  lia.
Qed.

(** X14: whatever the service answers and however long the loop is let
    run, the call does not raise, and it never returns more than
    [max_comments] comments (none when [max_comments] is not positive).  A
    request for a page that raises makes the loop raise, whatever was
    collected before it, and when the loop raises, or the client cannot be
    built, the call shows one error, the one of that exception, and returns
    the empty list; otherwise it shows nothing. *)
Theorem get_video_comments_bounded
    (S : Services) (fuel : nat) (video_id : string) (max_comments : Z)
    (s s' : session) (r : outcome (option pyval)) :
  get_video_comments S fuel video_id max_comments s = (r, s') ->
  (exists o, r = Ret o) /\
  (forall v, r = Ret (Some v) ->
             exists comments,
               v = PyList comments /\
               Z.of_nat (List.length comments) <= Z.max 0 max_comments) /\
  (forall e, build S = Raise e ->
             r = Ret (Some (PyList [])) /\ s' = shown (comments_error e) s) /\
  (forall e s1,
      build S = Ret tt ->
      collect_comments S fuel video_id max_comments [] PyNone s = (Raise e, s1) ->
      r = Ret (Some (PyList [])) /\ s' = shown (comments_error e) s1) /\
  (forall o s1,
      build S = Ret tt ->
      collect_comments S fuel video_id max_comments [] PyNone s = (Ret o, s1) ->
      s' = s1 /\ shown_errors s' = shown_errors s) /\
  (forall pages comments token s0 e,
      Z.of_nat (List.length comments) < max_comments ->
      comment_threads_list S video_id
        (Z.min 100 (max_comments - Z.of_nat (List.length comments))) token
      = Raise e ->
      collect_comments S (Datatypes.S pages) video_id max_comments comments token s0
      = (Raise e,
         called (CommentThreadsList video_id
                   (Z.min 100 (max_comments - Z.of_nat (List.length comments)))
                   token) s0)).
Proof.
  rewrite get_video_comments_run. intros Hrun.
  assert (Hpage : forall pages comments token s0 e,
             Z.of_nat (List.length comments) < max_comments ->
             comment_threads_list S video_id
               (Z.min 100 (max_comments - Z.of_nat (List.length comments))) token
             = Raise e ->
             collect_comments S (Datatypes.S pages) video_id max_comments comments
               token s0
             = (Raise e,
                called (CommentThreadsList video_id
                          (Z.min 100 (max_comments - Z.of_nat (List.length comments)))
                          token) s0)).
  { intros pages comments token s0 e Hlt Hreq.
    rewrite (collect_comments_step S pages video_id max_comments comments token s0 Hlt).
    cbn zeta. now rewrite Hreq. }
  destruct (build S) as [[] | e0].
  - destruct (collect_comments S fuel video_id max_comments [] PyNone s)
      as [[[comments |] | e] s1] eqn:Hloop;
      injection Hrun as <- <-;
      destruct (collect_comments_footprint S video_id max_comments fuel _ _ _ _ _ Hloop)
        as (_ & Herrors & _ & _).
    + split; [eauto |]. split; [| split; [| split; [| split]]].
      * intros v Hv. injection Hv as <-. eexists. split; [reflexivity |].
        destruct (Z.le_gt_cases 0 max_comments) as [Hpos | Hneg].
        -- pose proof (py_slice_to_length comments max_comments Hpos). lia.
        -- rewrite (collect_comments_done S fuel video_id max_comments [] PyNone s)
             in Hloop by (cbn; lia).
           injection Hloop as <- _. unfold py_slice_to.
           destruct (0 <=? max_comments); rewrite firstn_nil; cbn; lia.
      * intros e He. discriminate He.
      * intros e s2 _ He. discriminate He.
      * intros o s2 _ Ho. injection Ho as _ <-. split; [reflexivity | exact Herrors].
      * exact Hpage.
    + split; [eauto |]. split; [| split; [| split; [| split]]].
      * intros v Hv. discriminate Hv.
      * intros e He. discriminate He.
      * intros e s2 _ He. discriminate He.
      * intros o s2 _ Ho. injection Ho as _ <-. split; [reflexivity | exact Herrors].
      * exact Hpage.
    + split; [eauto |]. split; [| split; [| split; [| split]]].
      * intros v Hv. injection Hv as <-. exists []. split; [reflexivity |]. cbn. lia.
      * intros e' He. discriminate He.
      * intros e' s2 _ He. injection He as <- <-. split; reflexivity.
      * intros o s2 _ Ho. discriminate Ho.
      * exact Hpage.
  - injection Hrun as <- <-. split; [eauto |]. split; [| split; [| split; [| split]]].
    + intros v Hv. injection Hv as <-. exists []. split; [reflexivity |]. cbn. lia.
    + intros e He. injection He as <-. split; reflexivity.
    + intros e s1 Hb. discriminate Hb.
    + intros o s1 Hb. discriminate Hb.
    + exact Hpage.
Qed.

Lemma get_video_comments_bounded_witness :
  let run := get_video_comments broken_services 5 "v" 10 empty_session in
  let failure := OtherError "HttpError" "<HttpError 400 invalidPageToken>" in
  fst run = Ret (Some (PyList [])) /\
  snd run
  = shown (comments_error failure)
      (called (CommentThreadsList "v" 8 (PyStr "p3"))
         (called (CommentThreadsList "v" 10 PyNone) empty_session)).
Proof.
  refine (proj1 (proj2 (proj2 (proj2
            (get_video_comments_bounded broken_services 5 "v" 10 empty_session
               _ _ (surjective_pairing _)))))
            (OtherError "HttpError" "<HttpError 400 invalidPageToken>")
            (called (CommentThreadsList "v" 8 (PyStr "p3"))
               (called (CommentThreadsList "v" 10 PyNone) empty_session))
            _ _).
  - reflexivity.
  - vm_compute. reflexivity.
Defined.

(** X15: the call sends requests for pages of comments of its video and
    nothing else; each asks for at least 1 and at most 100 results and never
    for more than [max_comments]; nothing is printed, evaluated or sent to
    the chat model. *)
Theorem get_video_comments_requests
    (S : Services) (fuel : nat) (video_id : string) (max_comments : Z)
    (s s' : session) (r : outcome (option pyval)) :
  get_video_comments S fuel video_id max_comments s = (r, s') ->
  console s' = console s /\
  exists added,
    calls s' = (calls s ++ added)%list /\
    Forall (page_request video_id max_comments) added.
Proof.
  rewrite get_video_comments_run. intros Hrun.
  destruct (build S) as [[] | e].
  - destruct (collect_comments S fuel video_id max_comments [] PyNone s)
      as [[[comments |] | e] s1] eqn:Hloop;
      injection Hrun as <- <-;
      destruct (collect_comments_footprint S video_id max_comments fuel _ _ _ _ _ Hloop)
        as (Hconsole & _ & Hcalls & _);
      (split; [exact Hconsole | exact Hcalls]).
  - injection Hrun as <- <-. split; [reflexivity |].
    exists []. split; [cbn; now rewrite app_nil_r | constructor].
Qed.

Lemma get_video_comments_requests_witness :
  console (snd (get_video_comments (example_services (Ret "x")) 5 "v" 10 empty_session))
  = console empty_session /\
  exists added,
    calls (snd (get_video_comments (example_services (Ret "x")) 5 "v" 10 empty_session))
    = (calls empty_session ++ added)%list /\
    Forall (page_request "v" 10) added.
Proof.
  refine (get_video_comments_requests (example_services (Ret "x")) 5 "v" 10
            empty_session _ _ _).
  apply surjective_pairing.
Defined.

Lemma collect_comments_terminates (S : Services) (video_id : string)
    (max_comments : Z) :
  pages_advance S video_id ->
  forall fuel comments token s,
    (Z.to_nat (max_comments - Z.of_nat (List.length comments)) <= fuel)%nat ->
    fst (collect_comments S fuel video_id max_comments comments token s) <> Ret None.
Proof.
  intros Hadvance. induction fuel as [| fuel IH]; intros comments token s Hfuel.
  - rewrite collect_comments_done by lia. discriminate.
  - destruct (Z.lt_ge_cases (Z.of_nat (List.length comments)) max_comments)
      as [Hlt | Hge]; [| rewrite collect_comments_done by lia; discriminate].
    rewrite (collect_comments_step S fuel video_id max_comments comments token s Hlt).
    cbn zeta.
    destruct (comment_threads_list S video_id _ token) as [response | e] eqn:Hreq;
      [| discriminate].
    destruct (py_getitem response "items") as [listed | e] eqn:Hlisted;
      [| discriminate].
    destruct (py_iter listed) as [items | e] eqn:Hitems; [| discriminate].
    destruct (comment_records items) as [records | e] eqn:Hrecords; [| discriminate].
    destruct (py_get response "nextPageToken" PyNone) as [next | e] eqn:Hnext;
      [| discriminate].
    destruct (py_truthy next) eqn:Htruthy; cbn [negb]; [| discriminate].
    apply IH.
    pose proof (Hadvance _ _ _ _ _ _ Hreq Hlisted Hitems Hnext Htruthy) as Hsome.
    pose proof (comment_records_length _ _ Hrecords) as Hlen.
    rewrite length_app, Hlen.
    destruct items as [| item items]; [congruence |]. cbn [List.length]. lia.
Qed.

Lemma collect_comments_more_fuel (S : Services) (video_id : string)
    (max_comments : Z) :
  forall fuel fuel' comments token s,
    (fuel <= fuel')%nat ->
    fst (collect_comments S fuel video_id max_comments comments token s) <> Ret None ->
    collect_comments S fuel' video_id max_comments comments token s
    = collect_comments S fuel video_id max_comments comments token s.
Proof.
  induction fuel as [| fuel IH]; intros fuel' comments token s Hle Hdone.
  - destruct (Z.lt_ge_cases (Z.of_nat (List.length comments)) max_comments)
      as [Hlt | Hge].
    + exfalso. apply Hdone. cbn [collect_comments].
      destruct (Z.ltb_spec (Z.of_nat (List.length comments)) max_comments);
        [reflexivity | lia].
    + now rewrite !collect_comments_done by exact Hge.
  - destruct fuel' as [| fuel']; [lia |].
    destruct (Z.lt_ge_cases (Z.of_nat (List.length comments)) max_comments)
      as [Hlt | Hge]; [| now rewrite !collect_comments_done by exact Hge].
    rewrite (collect_comments_step S fuel video_id max_comments comments token s Hlt)
      in Hdone |- *.
    rewrite (collect_comments_step S fuel' video_id max_comments comments token s Hlt).
    cbn zeta in Hdone |- *.
    destruct (comment_threads_list S video_id _ token) as [response | e];
      [| reflexivity].
    destruct (py_getitem response "items") as [listed | e]; [| reflexivity].
    destruct (py_iter listed) as [items | e]; [| reflexivity].
    destruct (comment_records items) as [records | e]; [| reflexivity].
    destruct (py_get response "nextPageToken" PyNone) as [next | e]; [| reflexivity].
    destruct (negb (py_truthy next)); [reflexivity |].
    apply IH; [lia | exact Hdone].
Qed.

(** X16: when every page that names a next page brings at least one item,
    the loop ends within [max_comments] requests: letting it run longer
    changes nothing, and the call returns a list. *)
Theorem get_video_comments_completes
    (S : Services) (video_id : string) (max_comments : Z) (s : session) (fuel : nat) :
  pages_advance S video_id ->
  (Z.to_nat max_comments <= fuel)%nat ->
  get_video_comments S fuel video_id max_comments s
  = get_video_comments S (Z.to_nat max_comments) video_id max_comments s /\
  exists comments s',
    get_video_comments S fuel video_id max_comments s
    = (Ret (Some (PyList comments)), s').
Proof.
  intros Hadvance Hfuel.
  assert (Hdone : forall f, (Z.to_nat max_comments <= f)%nat ->
             fst (collect_comments S f video_id max_comments [] PyNone s) <> Ret None).
  { intros f Hf. apply collect_comments_terminates; [exact Hadvance |].
    cbn [List.length]. lia. }
  split.
  - rewrite !get_video_comments_run.
    rewrite (collect_comments_more_fuel S video_id max_comments
               (Z.to_nat max_comments) fuel [] PyNone s Hfuel (Hdone _ (le_n _))).
    reflexivity.
  - rewrite get_video_comments_run.
    specialize (Hdone fuel Hfuel).
    destruct (build S) as [[] | e]; [| eauto].
    destruct (collect_comments S fuel video_id max_comments [] PyNone s)
      as [[[comments |] | e] s1]; eauto.
    cbn [fst] in Hdone. congruence.
Qed.

Lemma example_pages_advance (reply : outcome string) :
  pages_advance (example_services reply) "v".
Proof.
  intros n token response listed items next Hreq Hlisted Hitems Hnext Htruthy.
  unfold example_services, stub_services in Hreq.
  cbn [comment_threads_list] in Hreq.
  unfold example_pages in Hreq. cbn [stub_lookup] in Hreq.
  destruct (String.eqb EmptyString (token_key token)).
  - injection Hreq as <-. vm_compute in Hlisted. injection Hlisted as <-.
    vm_compute in Hitems. injection Hitems as <-. discriminate.
  - destruct (String.eqb "p2" (token_key token)); [| discriminate].
    injection Hreq as <-. vm_compute in Hnext. injection Hnext as <-.
    discriminate.
Qed.

Lemma get_video_comments_completes_witness :
  get_video_comments (example_services (Ret "x")) 7 "v" 3 empty_session
  = get_video_comments (example_services (Ret "x")) (Z.to_nat 3) "v" 3 empty_session /\
  exists comments s',
    get_video_comments (example_services (Ret "x")) 7 "v" 3 empty_session
    = (Ret (Some (PyList comments)), s').
Proof.
  refine (get_video_comments_completes (example_services (Ret "x")) "v" 3
            empty_session 7 (example_pages_advance (Ret "x")) _).
  vm_compute. lia.
Defined.

Lemma collect_comments_stalls (S : Services) (video_id : string) (max_comments : Z) :
  pages_stall S video_id ->
  0 < max_comments ->
  forall fuel token s,
    exists s',
      collect_comments S fuel video_id max_comments [] token s = (Ret None, s') /\
      List.length (calls s') = (List.length (calls s) + fuel)%nat.
Proof.
  intros Hstall Hmax. induction fuel as [| fuel IH]; intros token s.
  - exists s. split; [| lia]. cbn [collect_comments List.length].
    destruct (Z.ltb_spec (Z.of_nat 0) max_comments); [reflexivity | lia].
  - rewrite collect_comments_step by (cbn [List.length]; lia). cbn zeta.
    destruct (Hstall (Z.min 100 (max_comments - Z.of_nat (@List.length pyval [])))
                token)
      as (response & listed & next & Hreq & Hlisted & Hitems & Hnext & Htruthy).
    rewrite Hreq, Hlisted, Hitems. cbn [comment_records].
    rewrite Hnext, Htruthy. cbn [negb app].
    destruct (IH next (called (CommentThreadsList video_id
                                 (Z.min 100 (max_comments - Z.of_nat (@List.length pyval [])))
                                 token) s)) as (s' & Hrun & Hcalls).
    exists s'. split; [exact Hrun |].
    rewrite Hcalls. cbn [called calls]. rewrite length_app. cbn [List.length]. lia.
Qed.

(** X17: the loop has no guard against a service that keeps answering with
    an empty page and a token for the next one: for a positive
    [max_comments] the call is still requesting pages after any number of
    them, and has returned nothing. *)
Theorem get_video_comments_stalls
    (S : Services) (video_id : string) (max_comments : Z) (s : session) (fuel : nat) :
  build S = Ret tt ->
  pages_stall S video_id ->
  0 < max_comments ->
  exists s',
    get_video_comments S fuel video_id max_comments s = (Ret None, s') /\
    List.length (calls s') = (List.length (calls s) + fuel)%nat.
Proof.
  intros Hbuild Hstall Hmax.
  rewrite get_video_comments_run, Hbuild.
  destruct (collect_comments_stalls S video_id max_comments Hstall Hmax fuel PyNone s)
    as (s' & Hrun & Hcalls).
  rewrite Hrun. eauto.
Qed.

Lemma looping_services_stall : pages_stall looping_services "v".
Proof.
  intros n token. do 3 eexists. repeat split.
Qed.

Lemma get_video_comments_stalls_witness :
  exists s',
    get_video_comments looping_services 25 "v" 10 empty_session = (Ret None, s') /\
    List.length (calls s') = (List.length (calls empty_session) + 25)%nat.
Proof.
  refine (get_video_comments_stalls looping_services "v" 10 empty_session 25
            _ looping_services_stall _).
  - reflexivity.
  - lia.
Defined.

(** ** [analyze_sentiment] *)

(** What the call comes to once the video analysis has returned and the
    texts of the comments are joined. *)
Lemma analyze_sentiment_run
    (I : Interpreter) (C : Captions) (S : Services) (comments : list pyval)
    (video_id : string) (s : session) (w : world)
    (video_content summary key_points topics : pyval)
    (texts : list pyval) (joined : string) :
  credential_present (runtime I) = true ->
  analyze_video_content I C video_id (console s) = (Ret video_content, w) ->
  content_field video_content "summary" = Ret summary ->
  content_field video_content "key_points" = Ret key_points ->
  content_field video_content "topics" = Ret topics ->
  comment_texts_of comments = Ret texts ->
  py_join newline texts = Ret joined ->
  let request := SentimentInvoke joined (py_str (runtime I) summary)
                   (py_str (runtime I) key_points) (py_str (runtime I) topics) in
  let sent := {| console := w; shown_errors := shown_errors s;
                 calls := (calls s ++ [request])%list |} in
  analyze_sentiment I C S comments video_id s
  = match sentiment_invoke S (List.length (calls s)) joined
            (py_str (runtime I) summary) (py_str (runtime I) key_points)
            (py_str (runtime I) topics) with
    | Raise e => (Finished (Raise e), sent)
    | Ret content =>
        match evaluate I content
                (sentiment_scope comments video_id video_content summary key_points
                   topics texts content)
                (process w) with
        | (ev, locals, globals) =>
            let ran := {| console := with_process globals (executed content w);
                          shown_errors := shown_errors s;
                          calls := (calls s ++ [request])%list |} in
            match ev with
            | Value value =>
                (Finished (Ret (PyDict [ (PyStr "raw_analysis", value);
                                         (PyStr "comment_count", comment_count locals) ])),
                 ran)
            | Throws e =>
                (Finished (Ret (PyDict [ (PyStr "raw_analysis", result_content locals);
                                         (PyStr "comment_count", comment_count locals);
                                         (PyStr "error", PyStr "딕셔너리 변환 실패") ])),
                 shown (conversion_error e) ran)
            | Leaves x => (Escaped x, ran)
            end
        end
    end.
Proof.
  intros Hkey Hcontent Hsummary Hpoints Htopics Htexts Hjoin. cbn zeta.
  unfold analyze_sentiment. cbn zeta. rewrite Hkey. cbn [negb].
  unfold py_eval_in. run_exec.
  rewrite Hcontent, Hsummary, Hpoints, Htopics, Htexts, Hjoin.
  cbn [calls].
  destruct (sentiment_invoke S (List.length (calls s)) joined
              (py_str (runtime I) summary) (py_str (runtime I) key_points)
              (py_str (runtime I) topics)) as [content | e]; [| reflexivity].
  cbn [console called shown_errors calls].
  destruct (evaluate I content
              (sentiment_scope comments video_id video_content summary key_points
                 topics texts content)
              (process w))
    as [[ev locals] globals].
  destruct ev as [value | e | x]; reflexivity.
Qed.



(** The count is taken after the evaluation: a reply that empties the list
    it finds under [comments] is answered with a count of 0 for two
    comments. *)
Lemma analyze_sentiment_counts_after_evaluation :
  fst (analyze_sentiment (example_interpreter well_formed_reply) example_captions
         (example_services (Ret reply_clearing_the_comments))
         [PyDict [(PyStr "text", PyStr "a")]; PyDict [(PyStr "text", PyStr "b")]]
         "bare" empty_session)
  = Ret (PyDict [ (PyStr "raw_analysis", PyDict []);
                  (PyStr "comment_count", PyInt 0) ]).
Proof.
  vm_compute. reflexivity.
Qed.

(** X19: an exception of the sentiment request is not handled: it leaves
    [analyze_sentiment], after the video analysis has run and the request
    was sent, and no error is shown. *)
Theorem analyze_sentiment_request_failure
    (R : Runtime) (C : Captions) (S : Services) (comments : list pyval)
    (video_id : string) (s : session) (w : world)
    (video_content summary key_points topics : pyval)
    (texts : list pyval) (joined : string) (e : exn) :
  credential_present R = true ->
  analyze_video_content R C video_id (console s) = (Ret video_content, w) ->
  content_field video_content "summary" = Ret summary ->
  content_field video_content "key_points" = Ret key_points ->
  content_field video_content "topics" = Ret topics ->
  comment_texts_of comments = Ret texts ->
  py_join newline texts = Ret joined ->
  sentiment_invoke S (List.length (calls s)) joined (py_str R summary)
    (py_str R key_points) (py_str R topics) = Raise e ->
  analyze_sentiment R C S comments video_id s
  = (Raise e,
     {| console := w;
        shown_errors := shown_errors s;
        calls := (calls s ++ [SentimentInvoke joined (py_str R summary)
                                (py_str R key_points) (py_str R topics)])%list |}).
Proof.
  intros Hkey Hcontent Hsummary Hpoints Htopics Htexts Hjoin Hreply.
  rewrite (analyze_sentiment_run R C S comments video_id s w video_content
             summary key_points topics texts joined
             Hkey Hcontent Hsummary Hpoints Htopics Htexts Hjoin).
  cbn zeta. cbn [runtime literally]. rewrite Hreply. reflexivity.
Qed.

Lemma analyze_sentiment_request_failure_witness :
  analyze_sentiment (example_runtime well_formed_reply) example_captions
    (example_services (Raise (OtherError "RateLimitError" "Rate limit reached")))
    [PyDict [(PyStr "text", PyStr "a")]] "silent" empty_session
  = (Raise (OtherError "RateLimitError" "Rate limit reached"),
     {| console := empty_world;
        shown_errors := [];
        calls := [SentimentInvoke "a" EmptyString EmptyString EmptyString] |}).
Proof.
  refine (analyze_sentiment_request_failure (example_runtime well_formed_reply)
            example_captions
            (example_services (Raise (OtherError "RateLimitError" "Rate limit reached")))
            [PyDict [(PyStr "text", PyStr "a")]] "silent" empty_session empty_world
            PyNone (PyStr EmptyString) (PyStr EmptyString) (PyStr EmptyString)
            [PyStr "a"] "a" (OtherError "RateLimitError" "Rate limit reached")
            _ _ _ _ _ _ _ _); reflexivity.
Defined.

(** ** From the comments to the sentiment prompt *)

Lemma comment_record_has_text (item record : pyval) :
  comment_record item = Ret record -> has_text record.
Proof.
  unfold comment_record, obind.
  destruct (py_getitem item "snippet") as [thread |]; [| discriminate].
  destruct (py_getitem thread "topLevelComment") as [top |]; [| discriminate].
  destruct (py_getitem top "snippet") as [comment |]; [| discriminate].
  destruct (py_getitem comment "authorDisplayName") as [author |]; [| discriminate].
  destruct (py_getitem comment "textDisplay") as [text |]; [| discriminate].
  destruct (py_getitem comment "likeCount") as [likes |]; [| discriminate].
  destruct (py_getitem comment "publishedAt") as [published_at |]; [| discriminate].
  intros [= <-]. do 2 eexists. split; reflexivity.
Qed.

Lemma comment_records_have_text (items records : list pyval) :
  comment_records items = Ret records -> Forall has_text records.
Proof.
  revert records. induction items as [| item rest IH]; intros records H.
  - injection H as <-. constructor.
  - cbn [comment_records] in H. unfold obind at 1 in H.
    destruct (comment_record item) as [record |] eqn:Hrecord; [| discriminate].
    unfold obind in H.
    destruct (comment_records rest) as [others |]; [| discriminate].
    injection H as <-. constructor.
    + eapply comment_record_has_text. exact Hrecord.
    + apply IH. reflexivity.
Qed.

Lemma collect_comments_have_text (S : Services) (video_id : string)
    (max_comments : Z) (fuel : nat) :
  forall comments token s result s',
    Forall has_text comments ->
    collect_comments S fuel video_id max_comments comments token s
    = (Ret (Some result), s') ->
    Forall has_text result.
Proof.
  induction fuel as [| fuel IH]; intros comments token s result s' Hall Hrun.
  - cbn [collect_comments] in Hrun.
    destruct (Z.of_nat (List.length comments) <? max_comments);
      [discriminate |].
    injection Hrun as <- _. exact Hall.
  - destruct (Z.lt_ge_cases (Z.of_nat (List.length comments)) max_comments)
      as [Hlt | Hge].
    + rewrite (collect_comments_step S fuel video_id max_comments comments token s Hlt)
        in Hrun.
      cbn zeta in Hrun.
      destruct (comment_threads_list S video_id _ token) as [response | e];
        [| discriminate].
      destruct (py_getitem response "items") as [listed | e]; [| discriminate].
      destruct (py_iter listed) as [items | e]; [| discriminate].
      destruct (comment_records items) as [records | e] eqn:Hrecords;
        [| discriminate].
      destruct (py_get response "nextPageToken" PyNone) as [next | e];
        [| discriminate].
      assert (Hmore : Forall has_text (comments ++ records)%list).
      { apply Forall_app. split; [exact Hall |].
        eapply comment_records_have_text. exact Hrecords. }
      destruct (negb (py_truthy next)).
      * injection Hrun as <- _. exact Hmore.
      * eapply IH; [exact Hmore | exact Hrun].
    + rewrite (collect_comments_done S _ video_id max_comments comments token s Hge)
        in Hrun.
      injection Hrun as <- _. exact Hall.
Qed.

Lemma Forall_firstn_of {A : Type} (P : A -> Prop) (k : nat) (items : list A) :
  Forall P items -> Forall P (firstn k items).
Proof.
  intros Hall. revert k. induction Hall as [| x rest Hx Hrest IH]; intros k.
  - rewrite firstn_nil. constructor.
  - destruct k; cbn; constructor; [exact Hx | apply IH].
Qed.

Lemma comment_texts_of_have_text (comments : list pyval) :
  Forall has_text comments ->
  exists texts,
    comment_texts_of comments = Ret texts /\
    List.length texts = List.length comments.
Proof.
  induction 1 as [| comment rest (entries & text & -> & Htext) _ (texts & Hrest & Hlen)].
  - exists []. split; reflexivity.
  - exists (text :: texts). cbn [comment_texts_of py_getitem].
    rewrite Htext. cbn [obind]. rewrite Hrest. cbn [obind].
    split; [reflexivity | cbn; now rewrite Hlen].
Qed.

(** X20: the comments [get_video_comments] returns all have a [text]
    entry, so the list of texts [analyze_sentiment] draws from them is built
    without a [KeyError], one text per comment. *)
Theorem get_video_comments_feed_sentiment
    (S : Services) (fuel : nat) (video_id : string) (max_comments : Z)
    (s s' : session) (comments : list pyval) :
  get_video_comments S fuel video_id max_comments s
  = (Ret (Some (PyList comments)), s') ->
  exists texts,
    comment_texts_of comments = Ret texts /\
    List.length texts = List.length comments.
Proof.
  rewrite get_video_comments_run. intros Hrun.
  apply comment_texts_of_have_text.
  destruct (build S) as [[] | e].
  - destruct (collect_comments S fuel video_id max_comments [] PyNone s)
      as [[[collected |] | e] s1] eqn:Hloop.
    + injection Hrun as <- _. unfold py_slice_to.
      pose proof (collect_comments_have_text S video_id max_comments fuel
                    [] PyNone s collected s1 (Forall_nil _) Hloop) as Hall.
      destruct (0 <=? max_comments); apply Forall_firstn_of; exact Hall.
    + discriminate.
    + injection Hrun as <- _. constructor.
  - injection Hrun as <- _. constructor.
Qed.

Lemma get_video_comments_feed_sentiment_witness :
  exists texts,
    comment_texts_of
      [ PyDict [ (PyStr "author", PyStr "kim");
                 (PyStr "text", PyStr "좋아요");
                 (PyStr "likes", PyInt 2);
                 (PyStr "published_at", PyStr "2024-01-01T00:00:00Z") ] ]
    = Ret texts /\
    List.length texts = 1%nat.
Proof.
  refine (get_video_comments_feed_sentiment (example_services (Ret "x")) 5 "v" 1
            empty_session
            (called (CommentThreadsList "v" 1 PyNone) empty_session)
            [ PyDict [ (PyStr "author", PyStr "kim");
                       (PyStr "text", PyStr "좋아요");
                       (PyStr "likes", PyInt 2);
                       (PyStr "published_at", PyStr "2024-01-01T00:00:00Z") ] ] _).
  vm_compute. reflexivity.
Defined.

(** ** The loop of the time-coded rendering *)

(** X7: on the captions of a track the loop of
    [get_transcript_with_timestamps] builds one line per caption, in order:
    the time code of its start in square brackets, a space and its text.  A
    caption without a [start] entry stops the loop with a [KeyError]. *)
Theorem format_segments_rendering (R : Runtime) (captions : list (Q * string)) :
  format_segments R (map segment_of captions)
  = Ret (map (fun line => "[" ++ format_time (fst line) ++ "] " ++ snd line)
             captions) /\
  forall entries rest,
    dict_get entries "start" = None ->
    format_segments R (map segment_of captions ++ PyDict entries :: rest)
    = Raise (KeyError "start").
Proof.
  split; [apply format_segments_lines |].
  intros entries rest Hstart.
  induction captions as [| line captions IH].
  - cbn [map app format_segments py_getitem]. rewrite Hstart. reflexivity.
  - cbn [map app format_segments]. unfold segment_of at 1.
    cbn -[format_time format_segments]. rewrite IH. reflexivity.
Qed.

Lemma format_segments_rendering_witness :
  format_segments (example_runtime well_formed_reply)
    (map segment_of greeting ++ [PyDict [(PyStr "text", PyStr "끝")]])
  = Raise (KeyError "start").
Proof.
  refine (proj2 (format_segments_rendering (example_runtime well_formed_reply) greeting)
                [(PyStr "text", PyStr "끝")] [] _).
  reflexivity.
Defined.
